(** * elephantasm-py: event capture and memory-pack retrieval client

    A shallow embedding of the request/response layer of the SDK:
    [elephantasm/exceptions.py], [elephantasm/types.py] and
    [elephantasm/client.py].  Python objects decoded from JSON are values of
    type [value]; Python floats are IEEE binary64 numbers, here Rocq's
    primitive floats; exceptions are the [Raise] branch of [outcome]; the
    HTTP transport held by a client is a function from requests to responses
    and every request handed to it is appended to a call log. *)

From Stdlib Require Import ZArith List String Ascii Bool Lia.
From Stdlib Require Import Floats.PrimFloat.
Import ListNotations.

#[local] Set Warnings "-register-all,-inexact-float".

Local Open Scope string_scope.
Local Open Scope Z_scope.

(** ** Python values *)

(** The objects [json.loads] can produce, which are also the objects a
    caller puts in a [meta] dictionary. *)
Inductive value : Type :=
| VNone
| VBool (b : bool)
| VInt (z : Z)
| VFloat (f : float)
| VStr (s : string)
| VList (l : list value)
| VDict (d : list (string * value)).

(** A [dict] with string keys, in insertion order. *)
Definition dict : Type := list (string * value).

(** [d.get(k)]: [None] when the key is missing. *)
Fixpoint get (k : string) (d : dict) : option value :=
  match d with
  | [] => None
  | (k', v) :: d' => if String.eqb k k' then Some v else get k d'
  end.

(** [d.get(k, default)]. *)
Definition get_default (k : string) (default : value) (d : dict) : value :=
  match get k d with
  | Some v => v
  | None => default
  end.

(** Truth value of a string: the empty string is false. *)
Definition str_truthy (s : string) : bool :=
  negb (String.eqb s "").

(** Truth value of [s] for [s : str | None]. *)
Definition opt_str_truthy (o : option string) : bool :=
  match o with
  | Some s => str_truthy s
  | None => false
  end.

(** Truth value of an object, as [if v:] tests it. *)
Definition truthy (v : value) : bool :=
  match v with
  | VNone => false
  | VBool b => b
  | VInt z => negb (z =? 0)
  | VFloat f => negb (PrimFloat.eqb f 0%float)
  | VStr s => str_truthy s
  | VList l => match l with [] => false | _ :: _ => true end
  | VDict d => match d with [] => false | _ :: _ => true end
  end.

(** [s.rstrip("/")]. *)
Fixpoint lstrip_slash (s : string) : string :=
  match s with
  | String "/" s' => lstrip_slash s'
  | _ => s
  end.

Fixpoint rev_string (acc s : string) : string :=
  match s with
  | EmptyString => acc
  | String c s' => rev_string (String c acc) s'
  end.

Definition rstrip_slash (s : string) : string :=
  rev_string "" (lstrip_slash (rev_string "" s)).

(** ["/" * n]. *)
Fixpoint slashes (n : nat) : string :=
  match n with
  | O => ""
  | S n' => String "/" (slashes n')
  end.

(** [list(d.keys())]. *)
Definition keys (d : dict) : list string := map fst d.

(** A string of the model is the UTF-8 encoding of the Python string, as a
    string literal of this file is.  A continuation byte, [10xxxxxx], is the
    second, third or fourth byte of a character. *)
Definition is_continuation (c : ascii) : bool :=
  match c with
  | Ascii _ _ _ _ _ _ b6 b7 => b7 && negb b6
  end.

(** [len(s)]: the number of characters, one per byte that is not a
    continuation byte. *)
Fixpoint char_count (s : string) : nat :=
  match s with
  | EmptyString => O
  | String c s' => if is_continuation c then char_count s' else S (char_count s')
  end.

(** [s * n]. *)
Fixpoint times (n : nat) (s : string) : string :=
  match n with
  | O => ""
  | S n' => s ++ times n' s
  end.

(** ** The libraries the SDK calls

    What the SDK uses of [uuid], [datetime] and pydantic, as an interface.
    The conversions of pydantic's lax mode are only consulted for an input
    that is not already of the target type. *)
Class Runtime : Type := {
  UUID : Type;
  datetime : Type;
  (** [uuid.UUID(s)]; [None] when it raises [ValueError]. *)
  UUID_of_str : string -> option UUID;
  (** [str(u)]. *)
  str_of_UUID : UUID -> string;
  (** The JSON form of a timestamp (ISO 8601). *)
  isoformat : datetime -> string;
  (** [str(v)] for an object that is not a string. *)
  repr : value -> string;
  (** pydantic's conversion of a non-[UUID] input to a [UUID] field. *)
  lax_uuid : value -> option UUID;
  (** pydantic's conversion of a non-[datetime] input to a [datetime] field. *)
  lax_datetime : value -> option datetime;
  (** pydantic's conversion of a non-[float] input to a [float] field. *)
  lax_float : value -> option float;
  (** pydantic's conversion of a non-[int] input to an [int] field. *)
  lax_int : value -> option Z;
  (** pydantic's conversion of a non-[bool] input to a [bool] field. *)
  lax_bool : value -> option bool;
  (** JSON-mode serialisation of a [dict[str, Any]] field under
      [exclude_none]. *)
  dump_any : dict -> dict
}.

(** [str(v)]. *)
Definition py_str `{Runtime} (v : value) : string :=
  match v with
  | VStr s => s
  | _ => repr v
  end.

(** ** Exceptions and results *)

Module exceptions.

(** The classes of [exceptions.py]. *)
Inductive cls : Type :=
| ElephantasmError_cls
| AuthenticationError_cls
| NotFoundError_cls
| RateLimitError_cls
| ValidationError_cls
| ServerError_cls.

(** An instance: its class and the two attributes [__init__] sets.  The
    message is whatever object the caller passed. *)
Record Error : Type := mkError {
  class_of : cls;
  message : value;
  status_code : option Z
}.

Definition with_default (default : string) (m : option value) : value :=
  match m with
  | Some v => v
  | None => VStr default
  end.

Definition ElephantasmError (message : value) (status_code : option Z) : Error :=
  mkError ElephantasmError_cls message status_code.

Definition AuthenticationError (message : option value) : Error :=
  mkError AuthenticationError_cls (with_default "Authentication failed" message) (Some 401).

Definition NotFoundError (message : option value) : Error :=
  mkError NotFoundError_cls (with_default "Resource not found" message) (Some 404).

Definition RateLimitError (message : option value) : Error :=
  mkError RateLimitError_cls (with_default "Rate limit exceeded" message) (Some 429).

Definition ValidationError (message : option value) : Error :=
  mkError ValidationError_cls (with_default "Validation failed" message) (Some 422).

Definition ServerError (message : option value) : Error :=
  mkError ServerError_cls (with_default "Server error" message) (Some 500).

End exceptions.

(** Everything the modelled code can raise. *)
Inductive exn : Type :=
| ValueError (msg : string)
| TypeError (msg : string)
| JSONDecodeError
| PydanticValidationError (title : string)
| ApiError (e : exceptions.Error)
| TransportError (msg : string).

Inductive outcome (A : Type) : Type :=
| Return (a : A)
| Raise (e : exn).

Arguments Return {A} a.
Arguments Raise {A} e.

Definition obind {A B : Type} (o : outcome A) (k : A -> outcome B) : outcome B :=
  match o with
  | Return a => k a
  | Raise e => Raise e
  end.

Declare Scope outcome_scope.
Delimit Scope outcome_scope with outcome.
Notation "x <- o ;; k" := (obind o (fun x => k))
  (at level 61, o at next level, right associativity) : outcome_scope.

(** A list comprehension whose body can raise: the first failure wins. *)
Fixpoint comprehension {A B : Type} (f : A -> outcome B) (l : list A) : outcome (list B) :=
  match l with
  | [] => Return []
  | a :: l' =>
      (b <- f a ;;
       bs <- comprehension f l' ;;
       Return (b :: bs))%outcome
  end.

(** ** Domain models ([types.py]) *)

Module types.

(** [class EventType(str, Enum)]. *)
Inductive EventType : Type :=
| MESSAGE_IN
| MESSAGE_OUT
| TOOL_CALL
| TOOL_RESULT
| SYSTEM.

(** [member.value]. *)
Definition EventType_value (e : EventType) : string :=
  match e with
  | MESSAGE_IN => "message.in"
  | MESSAGE_OUT => "message.out"
  | TOOL_CALL => "tool.call"
  | TOOL_RESULT => "tool.result"
  | SYSTEM => "system"
  end.

(** [member.name]. *)
Definition EventType_name (e : EventType) : string :=
  match e with
  | MESSAGE_IN => "MESSAGE_IN"
  | MESSAGE_OUT => "MESSAGE_OUT"
  | TOOL_CALL => "TOOL_CALL"
  | TOOL_RESULT => "TOOL_RESULT"
  | SYSTEM => "SYSTEM"
  end.

(** The constraint [ge=0.0, le=1.0] of a float field: both comparisons, as
    IEEE 754 defines them, must hold. *)
Definition ge_le_unit (x : float) : bool :=
  (PrimFloat.leb 0%float x && PrimFloat.leb x 1%float)%bool.

Section Models.
Context {R : Runtime}.

(** *** Field validators, for a keyword argument decoded from JSON *)

Definition as_str (v : value) : option string :=
  match v with
  | VStr s => Some s
  | _ => None
  end.

Definition as_float (v : value) : option float :=
  match v with
  | VFloat f => Some f
  | _ => lax_float v
  end.

Definition as_int (v : value) : option Z :=
  match v with
  | VInt z => Some z
  | _ => lax_int v
  end.

Definition as_bool (v : value) : option bool :=
  match v with
  | VBool b => Some b
  | _ => lax_bool v
  end.

Definition as_uuid (v : value) : option UUID := lax_uuid v.

Definition as_datetime (v : value) : option datetime := lax_datetime v.

(** [dict[str, Any]]. *)
Definition as_dict (v : value) : option dict :=
  match v with
  | VDict d => Some d
  | _ => None
  end.

(** [dict[str, float]]. *)
Fixpoint float_items (d : dict) : option (list (string * float)) :=
  match d with
  | [] => Some []
  | (k, v) :: d' =>
      match as_float v, float_items d' with
      | Some f, Some fs => Some ((k, f) :: fs)
      | _, _ => None
      end
  end.

Definition as_float_dict (v : value) : option (list (string * float)) :=
  match v with
  | VDict d => float_items d
  | _ => None
  end.

(** [T | None]. *)
Definition nullable {A : Type} (p : value -> option A) (v : value) : option (option A) :=
  match v with
  | VNone => Some None
  | _ => option_map Some (p v)
  end.

(** A field without a default: the key must be there and validate. *)
Definition required {A : Type} (title : string) (p : value -> option A)
    (k : string) (kwargs : dict) : outcome A :=
  match get k kwargs with
  | Some v =>
      match p v with
      | Some a => Return a
      | None => Raise (PydanticValidationError title)
      end
  | None => Raise (PydanticValidationError title)
  end.

(** A field with a default: taken when the key is missing. *)
Definition defaulted {A : Type} (title : string) (p : value -> option A)
    (k : string) (default : A) (kwargs : dict) : outcome A :=
  match get k kwargs with
  | Some v =>
      match p v with
      | Some a => Return a
      | None => Raise (PydanticValidationError title)
      end
  | None => Return default
  end.

(** A model built from an object unpacked as keyword arguments: the object
    must be a mapping. *)
Definition splat {A : Type} (model : dict -> outcome A) (obj : value) : outcome A :=
  match obj with
  | VDict kwargs => model kwargs
  | _ => Raise (TypeError "argument after ** must be a mapping")
  end.

(** *** Event *)

Record Event : Type := mkEvent {
  event_id : UUID;
  event_anima_id : UUID;
  event_event_type : string;
  event_role : option string;
  event_author : option string;
  event_summary : option string;
  event_content : string;
  event_occurred_at : option datetime;
  event_session_id : option string;
  event_meta : dict;
  event_source_uri : option string;
  event_dedupe_key : option string;
  event_importance_score : option float;
  event_created_at : datetime;
  event_updated_at : datetime
}.

Definition Event_new (kw : dict) : outcome Event :=
  let t := "Event" in
  (id <- required t as_uuid "id" kw ;;
   anima_id <- required t as_uuid "anima_id" kw ;;
   event_type <- required t as_str "event_type" kw ;;
   role <- defaulted t (nullable as_str) "role" None kw ;;
   author <- defaulted t (nullable as_str) "author" None kw ;;
   summary <- defaulted t (nullable as_str) "summary" None kw ;;
   content <- required t as_str "content" kw ;;
   occurred_at <- defaulted t (nullable as_datetime) "occurred_at" None kw ;;
   session_id <- defaulted t (nullable as_str) "session_id" None kw ;;
   meta <- defaulted t as_dict "meta" [] kw ;;
   source_uri <- defaulted t (nullable as_str) "source_uri" None kw ;;
   dedupe_key <- defaulted t (nullable as_str) "dedupe_key" None kw ;;
   importance_score <- defaulted t (nullable as_float) "importance_score" None kw ;;
   created_at <- required t as_datetime "created_at" kw ;;
   updated_at <- required t as_datetime "updated_at" kw ;;
   Return (mkEvent id anima_id event_type role author summary content occurred_at
             session_id meta source_uri dedupe_key importance_score
             created_at updated_at))%outcome.

(** *** EventCreate *)

Record EventCreate : Type := mkEventCreate {
  anima_id : UUID;
  event_type : string;
  content : string;
  role : option string;
  author : option string;
  summary : option string;
  occurred_at : option datetime;
  session_id : option string;
  meta : dict;
  source_uri : option string;
  dedupe_key : option string;
  importance_score : option float
}.

(** The names of the fields of [EventCreate], in the order of their
    declaration. *)
Definition EventCreate_fields : list string :=
  ["anima_id"; "event_type"; "content"; "role"; "author"; "summary";
   "occurred_at"; "session_id"; "meta"; "source_uri"; "dedupe_key";
   "importance_score"].

(** The only field of [EventCreate] that carries a constraint:
    [importance_score: float | None = Field(default=None, ge=0.0, le=1.0)]. *)
Definition importance_score_ok (x : option float) : bool :=
  match x with
  | Some f => ge_le_unit f
  | None => true
  end.

(** [EventCreate(anima_id=..., event_type=..., ...)] on arguments of the
    annotated types.  Every other field is accepted as it is: [event_type]
    is declared [str]. *)
Definition EventCreate_new (anima_id : UUID) (event_type content : string)
    (role author summary : option string) (occurred_at : option datetime)
    (session_id : option string) (meta : dict)
    (source_uri dedupe_key : option string) (importance_score : option float)
    : outcome EventCreate :=
  if importance_score_ok importance_score
  then Return (mkEventCreate anima_id event_type content role author summary
                 occurred_at session_id meta source_uri dedupe_key importance_score)
  else Raise (PydanticValidationError "EventCreate").

(** One entry of a dump, left out when the field is [None]. *)
Definition entry {A : Type} (k : string) (ser : A -> value) (x : option A) : dict :=
  match x with
  | Some a => [(k, ser a)]
  | None => []
  end.

(** [data.model_dump(mode="json", exclude_none=True)], fields in the order
    of their declaration. *)
Definition EventCreate_model_dump (data : EventCreate) : dict :=
  ([("anima_id", VStr (str_of_UUID (anima_id data)));
   ("event_type", VStr (event_type data));
   ("content", VStr (content data))]
  ++ entry "role" VStr (role data)
  ++ entry "author" VStr (author data)
  ++ entry "summary" VStr (summary data)
  ++ entry "occurred_at" (fun t => VStr (isoformat t)) (occurred_at data)
  ++ entry "session_id" VStr (session_id data)
  ++ [("meta", VDict (dump_any (meta data)))]
  ++ entry "source_uri" VStr (source_uri data)
  ++ entry "dedupe_key" VStr (dedupe_key data)
  ++ entry "importance_score" VFloat (importance_score data))%list.

(** *** ScoredMemory, IdentityContext *)

Record ScoredMemory : Type := mkScoredMemory {
  memory_id : UUID;
  memory_summary : option string;
  memory_score : float;
  memory_reason : option string;
  memory_breakdown : list (string * float);
  memory_similarity : option float
}.

Definition ScoredMemory_new (kw : dict) : outcome ScoredMemory :=
  let t := "ScoredMemory" in
  (id <- required t as_uuid "id" kw ;;
   summary <- defaulted t (nullable as_str) "summary" None kw ;;
   score <- required t as_float "score" kw ;;
   reason <- defaulted t (nullable as_str) "reason" None kw ;;
   breakdown <- defaulted t as_float_dict "breakdown" [] kw ;;
   similarity <- defaulted t (nullable as_float) "similarity" None kw ;;
   Return (mkScoredMemory id summary score reason breakdown similarity))%outcome.

Record IdentityContext : Type := mkIdentityContext {
  identity_personality_type : option string;
  identity_communication_style : option string;
  identity_self_reflection : option dict;
  identity_prose : option string
}.

Definition IdentityContext_new (kw : dict) : outcome IdentityContext :=
  let t := "IdentityContext" in
  (personality_type <- defaulted t (nullable as_str) "personality_type" None kw ;;
   communication_style <- defaulted t (nullable as_str) "communication_style" None kw ;;
   self_reflection <- defaulted t (nullable as_dict) "self_reflection" None kw ;;
   prose <- defaulted t (nullable as_str) "prose" None kw ;;
   Return (mkIdentityContext personality_type communication_style self_reflection prose))%outcome.

(** *** MemoryPack *)

Record MemoryPack : Type := mkMemoryPack {
  pack_id : UUID;
  pack_anima_id : UUID;
  pack_query : option string;
  pack_preset_name : option string;
  pack_session_memory_count : Z;
  pack_knowledge_count : Z;
  pack_long_term_memory_count : Z;
  pack_has_identity : bool;
  pack_token_count : Z;
  pack_max_tokens : Z;
  pack_content : dict;
  pack_compiled_at : datetime;
  pack_created_at : datetime
}.

Definition MemoryPack_new (kw : dict) : outcome MemoryPack :=
  let t := "MemoryPack" in
  (id <- required t as_uuid "id" kw ;;
   anima_id <- required t as_uuid "anima_id" kw ;;
   query <- defaulted t (nullable as_str) "query" None kw ;;
   preset_name <- defaulted t (nullable as_str) "preset_name" None kw ;;
   session_memory_count <- defaulted t as_int "session_memory_count" 0 kw ;;
   knowledge_count <- defaulted t as_int "knowledge_count" 0 kw ;;
   long_term_memory_count <- defaulted t as_int "long_term_memory_count" 0 kw ;;
   has_identity <- defaulted t as_bool "has_identity" false kw ;;
   token_count <- defaulted t as_int "token_count" 0 kw ;;
   max_tokens <- defaulted t as_int "max_tokens" 4000 kw ;;
   content <- defaulted t as_dict "content" [] kw ;;
   compiled_at <- required t as_datetime "compiled_at" kw ;;
   created_at <- required t as_datetime "created_at" kw ;;
   Return (mkMemoryPack id anima_id query preset_name session_memory_count
             knowledge_count long_term_memory_count has_identity token_count
             max_tokens content compiled_at created_at))%outcome.

(** The items a [for] loop over an object visits. *)
Definition iterate (v : value) : outcome (list value) :=
  match v with
  | VList l => Return l
  | VDict d => Return (map (fun kv => VStr (fst kv)) d)
  | VStr s => Return (map (fun c => VStr (String c "")) (list_ascii_of_string s))
  | _ => Raise (TypeError "object is not iterable")
  end.

(** [MemoryPack.as_prompt]. *)
Definition as_prompt (self : MemoryPack) : value :=
  if negb (truthy (VDict (pack_content self)))
  then VStr ""
  else get_default "context" (VStr "") (pack_content self).

(** [MemoryPack.identity]. *)
Definition identity (self : MemoryPack) : outcome (option IdentityContext) :=
  if negb (truthy (VDict (pack_content self)))
  then Return None
  else
    let identity_data := get_default "identity" VNone (pack_content self) in
    if truthy identity_data
    then (i <- splat IdentityContext_new identity_data ;; Return (Some i))%outcome
    else Return None.

(** [MemoryPack.session_memories]. *)
Definition session_memories (self : MemoryPack) : outcome (list ScoredMemory) :=
  if negb (truthy (VDict (pack_content self)))
  then Return []
  else
    let items := get_default "session_memories" (VList []) (pack_content self) in
    (its <- iterate items ;;
     comprehension (splat ScoredMemory_new) its)%outcome.

(** [MemoryPack.long_term_memories]. *)
Definition long_term_memories (self : MemoryPack) : outcome (list ScoredMemory) :=
  if negb (truthy (VDict (pack_content self)))
  then Return []
  else
    let items := get_default "long_term_memories" (VList []) (pack_content self) in
    (its <- iterate items ;;
     comprehension (splat ScoredMemory_new) its)%outcome.

(** *** ScoredKnowledge, TemporalContext *)

Record ScoredKnowledge : Type := mkScoredKnowledge {
  knowledge_id : UUID;
  knowledge_content : string;
  knowledge_type : string;
  knowledge_score : float;
  knowledge_similarity : option float
}.

Definition ScoredKnowledge_new (kw : dict) : outcome ScoredKnowledge :=
  let t := "ScoredKnowledge" in
  (id <- required t as_uuid "id" kw ;;
   content <- required t as_str "content" kw ;;
   type <- required t as_str "type" kw ;;
   score <- required t as_float "score" kw ;;
   similarity <- defaulted t (nullable as_float) "similarity" None kw ;;
   Return (mkScoredKnowledge id content type score similarity))%outcome.

Record TemporalContext : Type := mkTemporalContext {
  temporal_last_event_at : datetime;
  temporal_hours_ago : float;
  temporal_memory_summary : option string;
  temporal_formatted : string
}.

Definition TemporalContext_new (kw : dict) : outcome TemporalContext :=
  let t := "TemporalContext" in
  (last_event_at <- required t as_datetime "last_event_at" kw ;;
   hours_ago <- required t as_float "hours_ago" kw ;;
   memory_summary <- defaulted t (nullable as_str) "memory_summary" None kw ;;
   formatted <- required t as_str "formatted" kw ;;
   Return (mkTemporalContext last_event_at hours_ago memory_summary formatted))%outcome.

(** [MemoryPack.knowledge]. *)
Definition knowledge (self : MemoryPack) : outcome (list ScoredKnowledge) :=
  if negb (truthy (VDict (pack_content self)))
  then Return []
  else
    let items := get_default "knowledge" (VList []) (pack_content self) in
    (its <- iterate items ;;
     comprehension (splat ScoredKnowledge_new) its)%outcome.

(** [MemoryPack.temporal_context]. *)
Definition temporal_context (self : MemoryPack) : outcome (option TemporalContext) :=
  if negb (truthy (VDict (pack_content self)))
  then Return None
  else
    let temporal_data := get_default "temporal_context" VNone (pack_content self) in
    if truthy temporal_data
    then (t <- splat TemporalContext_new temporal_data ;; Return (Some t))%outcome
    else Return None.

(** *** Anima, AnimaCreate *)

Record Anima : Type := mkAnima {
  anima_uuid : UUID;
  anima_name : string;
  anima_description : option string;
  anima_meta : option dict;
  anima_user_id : option UUID;
  anima_created_at : datetime;
  anima_updated_at : datetime
}.

Definition Anima_new (kw : dict) : outcome Anima :=
  let t := "Anima" in
  (id <- required t as_uuid "id" kw ;;
   name <- required t as_str "name" kw ;;
   description <- defaulted t (nullable as_str) "description" None kw ;;
   meta <- defaulted t (nullable as_dict) "meta" None kw ;;
   user_id <- defaulted t (nullable as_uuid) "user_id" None kw ;;
   created_at <- required t as_datetime "created_at" kw ;;
   updated_at <- required t as_datetime "updated_at" kw ;;
   Return (mkAnima id name description meta user_id created_at updated_at))%outcome.

Record AnimaCreate : Type := mkAnimaCreate {
  create_name : string;
  create_description : option string;
  create_meta : option dict
}.

(** [AnimaCreate(name=..., description=..., meta=...)] on arguments of the
    annotated types; [name: str = Field(max_length=255)] is the only
    constraint, on the number of characters of the name. *)
Definition AnimaCreate_new (name : string) (description : option string)
    (meta : option dict) : outcome AnimaCreate :=
  if Nat.leb (char_count name) 255
  then Return (mkAnimaCreate name description meta)
  else Raise (PydanticValidationError "AnimaCreate").

(** [data.model_dump(exclude_none=True)]; [dump_python] is the
    serialisation of a [dict[str, Any]] field in that mode. *)
Definition AnimaCreate_model_dump (dump_python : dict -> dict)
    (data : AnimaCreate) : dict :=
  ([("name", VStr (create_name data))]
   ++ entry "description" VStr (create_description data)
   ++ entry "meta" (fun m => VDict (dump_python m)) (create_meta data))%list.

End Models.
End types.

(** ** The client ([client.py]) *)

Module client.

Import types.

(** *** The HTTP transport *)

Inductive http_method : Type := GET | POST.

(** What the client hands to [httpx]: the verb, the path under the base
    URL, the query parameters and the JSON body. *)
Record Request : Type := mkRequest {
  request_method : http_method;
  request_url : string;
  request_params : list (string * string);
  request_json : option value
}.

(** What [_handle_response] reads of an [httpx.Response]: [json] is what
    [response.json()] returns, [None] when it raises. *)
Record Response : Type := mkResponse {
  status_code : Z;
  text : string;
  json : option value
}.

(** [response.is_success]. *)
Definition is_success (response : Response) : bool :=
  (200 <=? status_code response) && (status_code response <=? 299).

(** An [httpx.Client] bound to a server: it answers a request with a
    response or raises. *)
Definition Transport : Type := Request -> outcome Response.

(** *** Computations that may call the transport

    The state is the log of the requests issued so far. *)
Definition M (A : Type) : Type := list Request -> outcome A * list Request.

Definition ret {A : Type} (a : A) : M A :=
  fun log => (Return a, log).

Definition raise {A : Type} (e : exn) : M A :=
  fun log => (Raise e, log).

Definition lift {A : Type} (o : outcome A) : M A :=
  fun log => (o, log).

Definition bind {A B : Type} (m : M A) (k : A -> M B) : M B :=
  fun log =>
    match m log with
    | (Return a, log') => k a log'
    | (Raise e, log') => (Raise e, log')
    end.

(** One call of the transport. *)
Definition send (t : Transport) (rq : Request) : M Response :=
  fun log => (t rq, (log ++ [rq])%list).

Declare Scope client_scope.
Delimit Scope client_scope with client.
Notation "x <- m ;; k" := (bind m (fun x => k))
  (at level 61, m at next level, right associativity) : client_scope.

(** The result and the requests issued, starting from an empty log. *)
Definition run {A : Type} (m : M A) : outcome A * list Request := m [].

Section Client.
Context {R : Runtime}.

(** *** Configuration ([config.py]) *)

Record ElephantasmSettings : Type := mkSettings {
  settings_api_key : option string;
  settings_anima_id : option string;
  settings_endpoint : string;
  settings_timeout : Z
}.

(** *** class Elephantasm *)

(** The attributes [__init__] sets: [self.api_key], [self.anima_id],
    [self.endpoint], [self.timeout] and [self._client]. *)
Record Elephantasm : Type := mkElephantasm {
  self_api_key : option string;
  self_anima_id : option string;
  self_endpoint : string;
  self_timeout : Z;
  _client : Transport
}.

(** [a or b] on [str | None]. *)
Definition or_str (a b : option string) : option string :=
  if opt_str_truthy a then a else b.

Definition unwrap (o : option string) : string :=
  match o with
  | Some s => s
  | None => ""
  end.

(** [Elephantasm.__init__]; [httpx_Client] is [httpx.Client(base_url=...,
    headers=..., timeout=...)], which builds the transport or raises (on a
    header value it cannot encode, on a malformed URL).  It is called after
    the check of the key. *)
Definition __init__ (settings : ElephantasmSettings)
    (httpx_Client : string -> list (string * string) -> Z -> outcome Transport)
    (api_key anima_id endpoint : option string) (timeout : option Z)
    : outcome Elephantasm :=
  let api_key := or_str api_key (settings_api_key settings) in
  let anima_id := or_str anima_id (settings_anima_id settings) in
  let endpoint :=
    rstrip_slash (unwrap (or_str endpoint (Some (settings_endpoint settings)))) in
  let timeout :=
    match timeout with
    | Some t => if t =? 0 then settings_timeout settings else t
    | None => settings_timeout settings
    end in
  if negb (opt_str_truthy api_key)
  then Raise (ValueError
    "API key required. Provide api_key parameter or set ELEPHANTASM_API_KEY.")
  else
    (transport <- httpx_Client (endpoint ++ "/api")
        [("Authorization", "Bearer " ++ unwrap api_key);
         ("Content-Type", "application/json")]
        timeout ;;
     Return (mkElephantasm api_key anima_id endpoint timeout transport))%outcome.

(** The [detail] computed by the [try]/[except] of [_handle_response]:
    [response.json().get("detail", response.text)], and [response.text] when
    that raises (the body does not decode, or decodes to an object without
    a [get] method). *)
Definition detail_of (response : Response) : value :=
  match json response with
  | Some (VDict body) => get_default "detail" (VStr (text response)) body
  | _ => VStr (text response)
  end.

(** [Elephantasm._handle_response]. *)
Definition _handle_response (response : Response) : outcome value :=
  if is_success response
  then
    match json response with
    | Some v => Return v
    | None => Raise JSONDecodeError
    end
  else
    let detail := detail_of response in
    let status := status_code response in
    if status =? 401 then
      Raise (ApiError (exceptions.AuthenticationError (Some detail)))
    else if status =? 404 then
      Raise (ApiError (exceptions.NotFoundError (Some detail)))
    else if status =? 422 then
      Raise (ApiError (exceptions.ValidationError (Some (VStr (py_str detail)))))
    else if status =? 429 then
      Raise (ApiError (exceptions.RateLimitError (Some detail)))
    else if status >=? 500 then
      Raise (ApiError (exceptions.ServerError (Some detail)))
    else
      Raise (ApiError (exceptions.ElephantasmError detail (Some status))).

(** An [anima_id] argument: [str | UUID]. *)
Inductive anima_arg : Type :=
| AnimaStr (s : string)
| AnimaUUID (u : UUID).

(** Truth value of [anima_id : str | UUID | None]; a [UUID] is always
    true. *)
Definition anima_truthy (a : option anima_arg) : bool :=
  match a with
  | Some (AnimaStr s) => str_truthy s
  | Some (AnimaUUID _) => true
  | None => false
  end.

(** [str(anima_id)]. *)
Definition str_of_anima (a : anima_arg) : string :=
  match a with
  | AnimaStr s => s
  | AnimaUUID u => str_of_UUID u
  end.

Definition anima_id_required : exn :=
  ValueError "anima_id required. Provide parameter or set default in client.".

(** The [aid] of [inject]: [str(anima_id) if anima_id else self.anima_id]. *)
Definition inject_aid (self : Elephantasm) (anima_id : option anima_arg) : option string :=
  if anima_truthy anima_id
  then option_map str_of_anima anima_id
  else self_anima_id self.

(** The [aid] of [extract]: [anima_id if anima_id else self.anima_id]. *)
Definition extract_aid (self : Elephantasm) (anima_id : option anima_arg) : option anima_arg :=
  if anima_truthy anima_id
  then anima_id
  else option_map AnimaStr (self_anima_id self).

(** The [params] dictionary of [inject]. *)
Definition inject_params (query preset : option string) : list (string * string) :=
  ((if opt_str_truthy query then [("query", unwrap query)] else [])
   ++ (if opt_str_truthy preset then [("preset", unwrap preset)] else []))%list.

(** [params.get(k)]. *)
Fixpoint get_param (k : string) (params : list (string * string)) : option string :=
  match params with
  | [] => None
  | (k', v) :: params' => if String.eqb k k' then Some v else get_param k params'
  end.

(** [Elephantasm.inject]. *)
Definition inject (self : Elephantasm) (anima_id : option anima_arg)
    (query preset : option string) : M (option MemoryPack) :=
  let aid := inject_aid self anima_id in
  if negb (opt_str_truthy aid)
  then raise anima_id_required
  else
    let params := inject_params query preset in
    (response <- send (_client self)
        (mkRequest GET ("/animas/" ++ unwrap aid ++ "/memory-packs/latest")
           params None) ;;
     result <- lift (_handle_response response) ;;
     match result with
     | VNone => ret None
     | _ =>
         pack <- lift (splat MemoryPack_new result) ;;
         ret (Some pack)
     end)%client.

(** An [event_type] argument: [str | EventType]. *)
Inductive event_type_arg : Type :=
| OfEnum (e : EventType)
| OfStr (s : string).

(** The [event_type_str] of [extract]:
    [event_type.value if isinstance(event_type, EventType) else event_type]. *)
Definition event_type_str_of (event_type : event_type_arg) : string :=
  match event_type with
  | OfEnum e => EventType_value e
  | OfStr s => s
  end.

(** [UUID(s)]. *)
Definition UUID_new (s : string) : outcome UUID :=
  match UUID_of_str s with
  | Some u => Return u
  | None => Raise (ValueError "badly formed hexadecimal UUID string")
  end.

(** [meta or {}]. *)
Definition meta_or_empty (meta : option dict) : dict :=
  match meta with
  | Some d => if truthy (VDict d) then d else []
  | None => []
  end.

(** [Elephantasm.extract]. *)
Definition extract (self : Elephantasm) (event_type : event_type_arg)
    (content : string) (anima_id : option anima_arg)
    (session_id role author : option string) (occurred_at : option datetime)
    (meta : option dict) (importance_score : option float) : M Event :=
  let aid := extract_aid self anima_id in
  if negb (anima_truthy aid)
  then raise anima_id_required
  else
    let event_type_str := event_type_str_of event_type in
    (u <- lift (UUID_new (unwrap (option_map str_of_anima aid))) ;;
     data <- lift (EventCreate_new u event_type_str content role author None
                     occurred_at session_id (meta_or_empty meta) None None
                     importance_score) ;;
     let payload := EventCreate_model_dump data in
     response <- send (_client self)
        (mkRequest POST "/events" [] (Some (VDict payload))) ;;
     result <- lift (_handle_response response) ;;
     lift (splat Event_new result))%client.

Section CreateAnima.

(** The Python-mode serialisation of a [dict[str, Any]] field under
    [exclude_none]. *)
Variable dump_python : dict -> dict.

(** [Elephantasm.create_anima]. *)
Definition create_anima (self : Elephantasm) (name : string)
    (description : option string) (meta : option dict) : M Anima :=
  (data <- lift (AnimaCreate_new name description meta) ;;
   response <- send (_client self)
      (mkRequest POST "/animas" []
         (Some (VDict (AnimaCreate_model_dump dump_python data)))) ;;
   result <- lift (_handle_response response) ;;
   lift (splat Anima_new result))%client.

End CreateAnima.

End Client.

(** The [event_type] field of the body of the only request in a log. *)
Definition posted_event_type (log : list Request) : option value :=
  match log with
  | [rq] =>
      match request_json rq with
      | Some (VDict payload) => get "event_type" payload
      | _ => None
      end
  | _ => None
  end.

(** The [importance_score] field of the body of the only request in a log. *)
Definition posted_importance_score (log : list Request) : option value :=
  match log with
  | [rq] =>
      match request_json rq with
      | Some (VDict payload) => get "importance_score" payload
      | _ => None
      end
  | _ => None
  end.

End client.

(** ** Module-level functions ([functions.py]) *)

Module functions.

Import types client.

Section Functions.
Context {R : Runtime}.

(** [config.settings], loaded when the package is imported. *)
Variable settings : ElephantasmSettings.

(** [httpx.Client(base_url=..., headers=..., timeout=...)]. *)
Variable httpx_Client : string -> list (string * string) -> Z -> outcome Transport.

Variable dump_python : dict -> dict.

(** The module's global [_default_client]. *)
Definition global : Type := option Elephantasm.

(** A call of a module-level function: its result, the requests issued and
    the global it leaves. *)
Definition call (A : Type) : Type := global -> (outcome A * list Request) * global.

(** [_get_client]: [Elephantasm()] is called only while the global is
    [None]; when it raises, the assignment does not happen. *)
Definition _get_client (g : global) : outcome Elephantasm * global :=
  match g with
  | Some c => (Return c, g)
  | None =>
      match __init__ settings httpx_Client None None None None with
      | Return c => (Return c, Some c)
      | Raise e => (Raise e, None)
      end
  end.

(** [_get_client().method(...)]. *)
Definition on_default_client {A : Type} (method : Elephantasm -> M A) : call A :=
  fun g =>
    match _get_client g with
    | (Return c, g') => (run (method c), g')
    | (Raise e, g') => ((Raise e, []), g')
    end.

(** [functions.create_anima]. *)
Definition create_anima (name : string) (description : option string)
    (meta : option dict) : call Anima :=
  on_default_client
    (fun c => client.create_anima dump_python c name description meta).

(** [functions.inject]. *)
Definition inject (anima_id : option anima_arg) (query preset : option string)
    : call (option MemoryPack) :=
  on_default_client (fun c => client.inject c anima_id query preset).

(** [functions.extract]. *)
Definition extract (event_type : event_type_arg) (content : string)
    (anima_id : option anima_arg) (session_id role author : option string)
    (occurred_at : option datetime) (meta : option dict)
    (importance_score : option float) : call Event :=
  on_default_client
    (fun c => client.extract c event_type content anima_id session_id role
                author occurred_at meta importance_score).

End Functions.
End functions.

(** ** Fixtures ([tests/conftest.py])

    A runtime to evaluate the model with: identifiers and timestamps are kept
    in their text form, an identifier is 36 characters long, and no lax
    conversion applies. *)
Definition test_runtime : Runtime := {|
  UUID := string;
  datetime := string;
  UUID_of_str := fun s => if Nat.eqb (String.length s) 36 then Some s else None;
  str_of_UUID := fun u => u;
  isoformat := fun t => t;
  repr := fun _ => "<object>";
  lax_uuid := fun v =>
    match v with
    | VStr s => if Nat.eqb (String.length s) 36 then Some s else None
    | _ => None
    end;
  lax_datetime := fun v =>
    match v with
    | VStr s => Some s
    | _ => None
    end;
  lax_float := fun _ => None;
  lax_int := fun _ => None;
  lax_bool := fun _ => None;
  dump_any := fun d => d
|}.

Module fixtures.

Import types client.

Definition anima_id : string := "123e4567-e89b-12d3-a456-426614174000".

Definition now : string := "2026-01-01T00:00:00+00:00".

(** The settings of an environment that sets no [ELEPHANTASM_] variable. *)
Definition settings : ElephantasmSettings :=
  mkSettings None None "https://api.elephantasm.com" 30.

(** An [httpx] mock that answers every request with the same response. *)
Definition mock_api (response : Response) : Transport :=
  fun _ => Return response.

(** The [client] fixture, talking to [transport]. *)
Definition client (transport : Transport) : Elephantasm :=
  mkElephantasm (Some "sk_test_abc123def456") (Some anima_id)
    "https://test.api.elephantasm.com" 30 transport.

(** A client built without a default anima id, as in
    [test_inject_requires_anima_id]. *)
Definition client_without_anima (transport : Transport) : Elephantasm :=
  mkElephantasm (Some "sk_test_abc123def456") None
    "https://test.api.elephantasm.com" 30 transport.

Definition mock_event : dict :=
  [("id", VStr "00000000-0000-4000-8000-000000000001");
   ("anima_id", VStr anima_id);
   ("event_type", VStr "message.in");
   ("role", VStr "user");
   ("author", VStr "test-user");
   ("summary", VNone);
   ("content", VStr "Hello, world!");
   ("occurred_at", VStr now);
   ("session_id", VStr "session-123");
   ("meta", VDict []);
   ("source_uri", VNone);
   ("dedupe_key", VNone);
   ("importance_score", VNone);
   ("created_at", VStr now);
   ("updated_at", VStr now)].

Definition mock_identity : dict :=
  [("personality_type", VStr "INTJ");
   ("communication_style", VStr "direct");
   ("self_reflection", VDict [("core_values", VList [VStr "accuracy"; VStr "efficiency"])]);
   ("prose", VStr "You are a thoughtful assistant.")].

Definition mock_session_memory : dict :=
  [("id", VStr "00000000-0000-4000-8000-000000000002");
   ("summary", VStr "User asked about weather");
   ("score", VFloat 0.9%float);
   ("reason", VStr "Recent and relevant");
   ("breakdown", VDict [("recency", VFloat 0.95%float); ("importance", VFloat 0.85%float)])].

(** The [content] of [mock_memory_pack], with or without its identity
    section. *)
Definition mock_content (with_identity : bool) : dict :=
  ([("context", VStr "You have memories of past conversations with this user.")]
   ++ (if with_identity then [("identity", VDict mock_identity)] else [])
   ++ [("session_memories", VList [VDict mock_session_memory])])%list.

Definition mock_memory_pack (with_identity : bool) : dict :=
  [("id", VStr "00000000-0000-4000-8000-000000000003");
   ("anima_id", VStr anima_id);
   ("query", VNone);
   ("preset_name", VStr "conversational");
   ("session_memory_count", VInt 2);
   ("knowledge_count", VInt 3);
   ("long_term_memory_count", VInt 1);
   ("has_identity", VBool true);
   ("token_count", VInt 1500);
   ("max_tokens", VInt 4000);
   ("content", VDict (mock_content with_identity));
   ("compiled_at", VStr now);
   ("created_at", VStr now)].

(** The event the client decodes from [mock_event]. *)
Definition event : Event (R := test_runtime) :=
  mkEvent (R := test_runtime)
    "00000000-0000-4000-8000-000000000001" anima_id "message.in"
    (Some "user") (Some "test-user") None "Hello, world!" (Some now)
    (Some "session-123") [] None None None now now.

(** The server of [test_extract_success]: 201 with [mock_event]. *)
Definition created : Transport :=
  mock_api (mkResponse 201 "" (Some (VDict mock_event))).

(** The server of [test_inject_returns_none_when_no_packs]: 200 with a
    [null] body. *)
Definition no_packs : Transport :=
  mock_api (mkResponse 200 "null" (Some VNone)).

(** A pack with the counters of [mock_memory_pack] and the given
    [content]. *)
Definition pack_with_content (content : dict) : MemoryPack (R := test_runtime) :=
  mkMemoryPack (R := test_runtime)
    "00000000-0000-4000-8000-000000000003" anima_id None (Some "conversational")
    2 3 1 true 1500 4000 content now now.

(** The pack the client decodes from [mock_memory_pack]. *)
Definition pack (with_identity : bool) : MemoryPack (R := test_runtime) :=
  pack_with_content (mock_content with_identity).

(** A session memory sent without its [id]. *)
Definition content_without_memory_id : dict :=
  [("context", VStr "You have memories of past conversations with this user.");
   ("session_memories",
    VList [VDict [("summary", VStr "User asked about weather");
                  ("score", VFloat 0.9%float)]])].

(** The settings of an environment that sets the key, the anima id and
    the endpoint. *)
Definition settings_from_env : ElephantasmSettings :=
  mkSettings (Some "sk_test_abc123def456") (Some anima_id)
    "https://test.api.elephantasm.com/" 30.

(** [httpx.Client(...)] on a network where every server answers like
    [transport]. *)
Definition httpx_Client (transport : Transport)
    : string -> list (string * string) -> Z -> outcome Transport :=
  fun _ _ _ => Return transport.

(** [httpx.Client(...)] refusing its arguments, as it does for a header
    value it cannot encode. *)
Definition httpx_refuses
    : string -> list (string * string) -> Z -> outcome Transport :=
  fun _ _ _ => Raise (TransportError "invalid header value").

(** A name of 100 characters of three bytes each. *)
Definition kanji_name : string := times 100 "日".

(** A network that cannot be reached. *)
Definition unreachable : Transport :=
  fun _ => Raise (TransportError "connection refused").

(** A server that is down: 503 with a text body. *)
Definition unavailable : Response :=
  mkResponse 503 "Service Unavailable" None.

(** A server that answers 200 with an empty JSON list. *)
Definition empty_list : Transport :=
  mock_api (mkResponse 200 "[]" (Some (VList []))).

Definition mock_anima : dict :=
  [("id", VStr anima_id);
   ("name", VStr "Test Anima");
   ("description", VStr "A test anima");
   ("meta", VDict [("test", VBool true)]);
   ("user_id", VStr "00000000-0000-4000-8000-000000000004");
   ("created_at", VStr now);
   ("updated_at", VStr now)].

(** The server of [test_create_anima_success]: 201 with [mock_anima]. *)
Definition anima_created : Transport :=
  mock_api (mkResponse 201 "" (Some (VDict mock_anima))).

Definition mock_knowledge : dict :=
  [("id", VStr "00000000-0000-4000-8000-000000000005");
   ("content", VStr "User prefers concise responses");
   ("type", VStr "preference");
   ("score", VFloat 0.85%float);
   ("similarity", VFloat 0.78%float)].

(** The keyword arguments of a pack with nothing but its required fields. *)
Definition minimal_memory_pack : dict :=
  [("id", VStr "00000000-0000-4000-8000-000000000003");
   ("anima_id", VStr anima_id);
   ("compiled_at", VStr now);
   ("created_at", VStr now)].

(** The [EventCreate] of [test_extract_with_all_params]. *)
Definition event_create : EventCreate (R := test_runtime) :=
  mkEventCreate (R := test_runtime) anima_id "message.in" "Hello!"
    (Some "user") (Some "test-user") None None (Some "session-123")
    [("key", VStr "value")] None None (Some 0.8%float).

(** In [test_runtime] no serialisation changes a dictionary. *)
Definition dump_python : dict -> dict := fun d => d.

End fixtures.

(** * Properties *)

(** ** Sanity checks on the fixtures *)

Example mock_memory_pack_decodes :
  types.MemoryPack_new (R := test_runtime) (fixtures.mock_memory_pack true)
  = Return (fixtures.pack true).
Proof. reflexivity. Qed.

Example client_fixture_is_constructed :
  client.__init__ fixtures.settings (fun _ _ _ => Return fixtures.created)
    (Some "sk_test_abc123def456") (Some fixtures.anima_id)
    (Some "https://test.api.elephantasm.com/") None
  = Return (fixtures.client fixtures.created).
Proof. reflexivity. Qed.

Example client_without_anima_is_constructed :
  client.__init__ fixtures.settings (fun _ _ _ => Return fixtures.created)
    (Some "sk_test_abc123def456") None
    (Some "https://test.api.elephantasm.com") None
  = Return (fixtures.client_without_anima fixtures.created).
Proof. reflexivity. Qed.

Example init_requires_api_key :
  client.__init__ fixtures.settings (fun _ _ _ => Return fixtures.created)
    None None None None
  = Raise (ValueError
      "API key required. Provide api_key parameter or set ELEPHANTASM_API_KEY.").
Proof. reflexivity. Qed.

Example inject_success :
  client.run (client.inject
    (fixtures.client (fixtures.mock_api
       (client.mkResponse 200 "" (Some (VDict (fixtures.mock_memory_pack true))))))
    None (Some "user preferences") None)
  = (Return (Some (fixtures.pack true)),
     [client.mkRequest client.GET
        "/animas/123e4567-e89b-12d3-a456-426614174000/memory-packs/latest"
        [("query", "user preferences")] None]).
Proof. reflexivity. Qed.

(** ** Response handling *)

Section ResponseMapping.
Context {R : Runtime}.
Import exceptions client.

(** A status of 500 or more is not a success status. *)
Lemma server_status_not_success (r : Response) :
  status_code r >= 500 -> is_success r = false.
Proof.
  intros H. unfold is_success.
  apply andb_false_iff. right. apply Z.leb_gt. lia.
Qed.

(** On a response that is not a success, [_handle_response] raises. *)
Lemma handle_response_raises (r : Response) :
  is_success r = false -> exists e, _handle_response r = Raise (ApiError e).
Proof.
  intros H. unfold _handle_response. rewrite H.
  repeat match goal with
         | |- context [if ?b then _ else _] => destruct b
         end; eexists; reflexivity.
Qed.

(** The branch taken on a status of 500 or more. *)
Lemma handle_response_server (r : Response) :
  status_code r >= 500 ->
  _handle_response r = Raise (ApiError (ServerError (Some (detail_of r)))).
Proof.
  intros H. unfold _handle_response.
  rewrite (server_status_not_success r H).
  replace (status_code r =? 401) with false by (symmetry; apply Z.eqb_neq; lia).
  replace (status_code r =? 404) with false by (symmetry; apply Z.eqb_neq; lia).
  replace (status_code r =? 422) with false by (symmetry; apply Z.eqb_neq; lia).
  replace (status_code r =? 429) with false by (symmetry; apply Z.eqb_neq; lia).
  replace (status_code r >=? 500) with true by (symmetry; apply Z.geb_le; lia).
  reflexivity.
Qed.

(** C5: a response outside 2xx never yields a value; it raises the error
    class its status selects (401 Authentication, 404 NotFound, 422
    Validation, 429 RateLimit, 500 and above Server, anything else the root
    class carrying the observed status), with the [detail] of the JSON body
    as message (its [str] form for 422), and the raw text as message when
    the body does not decode or has no [detail]. *)
Theorem handle_response_error_dispatch (r : Response) :
  is_success r = false ->
  (forall body msg,
      json r = Some (VDict body) -> get "detail" body = Some msg ->
      detail_of r = msg)
  /\ (json r = None -> detail_of r = VStr (text r))
  /\ (forall body,
      json r = Some (VDict body) -> get "detail" body = None ->
      detail_of r = VStr (text r))
  /\ (status_code r = 401 ->
      _handle_response r
      = Raise (ApiError (mkError AuthenticationError_cls (detail_of r) (Some 401))))
  /\ (status_code r = 404 ->
      _handle_response r
      = Raise (ApiError (mkError NotFoundError_cls (detail_of r) (Some 404))))
  /\ (status_code r = 422 ->
      _handle_response r
      = Raise (ApiError (mkError ValidationError_cls (VStr (py_str (detail_of r))) (Some 422)))
      /\ forall s, detail_of r = VStr s -> VStr (py_str (detail_of r)) = detail_of r)
  /\ (status_code r = 429 ->
      _handle_response r
      = Raise (ApiError (mkError RateLimitError_cls (detail_of r) (Some 429))))
  /\ (status_code r >= 500 ->
      _handle_response r
      = Raise (ApiError (mkError ServerError_cls (detail_of r) (Some 500))))
  /\ (status_code r <> 401 -> status_code r <> 404 -> status_code r <> 422 ->
      status_code r <> 429 -> status_code r < 500 ->
      _handle_response r
      = Raise (ApiError (mkError ElephantasmError_cls (detail_of r) (Some (status_code r)))))
  /\ (forall v, _handle_response r <> Return v).
Proof.
  intros Hns.
  repeat split.
  - intros body msg Hj Hd. unfold detail_of, get_default. rewrite Hj, Hd. reflexivity.
  - intros Hj. unfold detail_of. rewrite Hj. reflexivity.
  - intros body Hj Hd. unfold detail_of, get_default. rewrite Hj, Hd. reflexivity.
  - intros Hs. unfold _handle_response. rewrite Hns, Hs. reflexivity.
  - intros Hs. unfold _handle_response. rewrite Hns, Hs. reflexivity.
  - unfold _handle_response. rewrite Hns, H. reflexivity.
  - intros s Hd. rewrite Hd. reflexivity.
  - intros Hs. unfold _handle_response. rewrite Hns, Hs. reflexivity.
  - intros Hs. rewrite (handle_response_server r Hs). reflexivity.
  - intros H1 H2 H3 H4 H5. unfold _handle_response. rewrite Hns.
    apply Z.eqb_neq in H1, H2, H3, H4. rewrite H1, H2, H3, H4.
    replace (status_code r >=? 500) with false
      by (symmetry; rewrite Z.geb_leb; apply Z.leb_gt; lia).
    reflexivity.
  - intros v Hv. destruct (handle_response_raises r Hns) as [e He].
    rewrite He in Hv. discriminate Hv.
Qed.

(** C9: on any status of 500 or more the error raised is a [ServerError]
    whose [status_code] is 500: two such responses with the same body raise
    the same error, whatever their statuses. *)
Theorem server_error_status_code_is_500 (r : Response) :
  status_code r >= 500 ->
  (exists e,
      _handle_response r = Raise (ApiError e)
      /\ class_of e = ServerError_cls
      /\ exceptions.status_code e = Some 500)
  /\ (forall r',
      status_code r' >= 500 -> text r' = text r -> json r' = json r ->
      _handle_response r' = _handle_response r).
Proof.
  intros H. split.
  - exists (ServerError (Some (detail_of r))).
    rewrite (handle_response_server r H). repeat split.
  - intros r' H' Ht Hj.
    rewrite (handle_response_server r H), (handle_response_server r' H').
    unfold detail_of. rewrite Ht, Hj. reflexivity.
Qed.

End ResponseMapping.

(** ** inject *)

Section Inject.
Context {R : Runtime}.
Import exceptions types client.

(** Without an effective anima id [inject] raises before it sends. *)
Lemma inject_without_anima (self : Elephantasm) (a : option anima_arg)
    (q p : option string) :
  opt_str_truthy (inject_aid self a) = false ->
  run (inject self a q p) = (Raise anima_id_required, []).
Proof.
  intros H. unfold run, inject. rewrite H. reflexivity.
Qed.

(** With one, [inject] sends exactly one GET and maps the answer. *)
Lemma inject_with_anima (self : Elephantasm) (a : option anima_arg)
    (q p : option string) :
  opt_str_truthy (inject_aid self a) = true ->
  let rq := mkRequest GET
              ("/animas/" ++ unwrap (inject_aid self a) ++ "/memory-packs/latest")
              (inject_params q p) None in
  run (inject self a q p)
  = ((response <- _client self rq ;;
      result <- _handle_response response ;;
      match result with
      | VNone => Return None
      | _ => (pack <- splat MemoryPack_new result ;; Return (Some pack))
      end)%outcome,
     [rq]).
Proof.
  intros H rq. unfold run, inject. rewrite H.
  cbv beta iota delta [negb bind send lift ret app obind]. fold rq.
  destruct (_client self rq) as [response | e]; [ | reflexivity ].
  destruct (_handle_response response) as [result | e]; [ | reflexivity ].
  destruct result; try reflexivity;
    match goal with
    | |- context [splat MemoryPack_new ?v] =>
        destruct (splat MemoryPack_new v); reflexivity
    end.
Qed.

(** C4: when the transport answers the request of [inject] with a 2xx
    response whose body is JSON [null], [inject] returns [None]; when it
    answers with a 404, [inject] raises [NotFoundError]. *)
Theorem inject_null_body_is_absent (self : Elephantasm) (a : option anima_arg)
    (q p : option string) (rq : Request) (r : Response) :
  snd (run (inject self a q p)) = [rq] ->
  _client self rq = Return r ->
  (is_success r = true -> json r = Some VNone ->
   fst (run (inject self a q p)) = Return None)
  /\ (status_code r = 404 ->
      fst (run (inject self a q p))
      = Raise (ApiError (mkError NotFoundError_cls (detail_of r) (Some 404)))).
Proof.
  intros Hlog Hsend.
  destruct (opt_str_truthy (inject_aid self a)) eqn:Haid.
  - pose proof (inject_with_anima self a q p Haid) as E. cbv zeta in E.
    set (rq' := mkRequest GET _ _ None) in E. clearbody rq'.
    rewrite E in Hlog |- *. cbn [fst snd] in Hlog |- *.
    injection Hlog as Hrq. rewrite Hrq, Hsend. cbn [obind].
    split.
    + intros Hok Hnull. unfold _handle_response. rewrite Hok, Hnull. reflexivity.
    + intros H404. unfold _handle_response, is_success. rewrite H404. reflexivity.
  - rewrite (inject_without_anima self a q p Haid) in Hlog. discriminate Hlog.
Qed.

(** C10: an empty [anima_id] argument is the same call as no argument (the
    default is used, and without a default the call raises before sending);
    an empty [query] or [preset] is the same call as none and adds no
    query parameter. *)
Theorem inject_empty_strings_are_absent (self : Elephantasm)
    (a : option anima_arg) (q p : option string) :
  inject self (Some (AnimaStr "")) q p = inject self None q p
  /\ inject_aid self (Some (AnimaStr "")) = self_anima_id self
  /\ (opt_str_truthy (self_anima_id self) = false ->
      run (inject self (Some (AnimaStr "")) q p) = (Raise anima_id_required, []))
  /\ (opt_str_truthy (self_anima_id self) = true ->
      exists response_part,
        run (inject self (Some (AnimaStr "")) q p)
        = (response_part,
           [mkRequest GET
              ("/animas/" ++ unwrap (self_anima_id self) ++ "/memory-packs/latest")
              (inject_params q p) None]))
  /\ inject self a (Some "") p = inject self a None p
  /\ inject self a q (Some "") = inject self a q None
  /\ get_param "query" (inject_params (Some "") p) = None
  /\ get_param "preset" (inject_params q (Some "")) = None
  /\ inject_params (Some "") (Some "") = [].
Proof.
  repeat split.
  - intros H. apply inject_without_anima. exact H.
  - intros H. eexists. apply (inject_with_anima self (Some (AnimaStr "")) q p). exact H.
  - unfold inject_params. simpl. destruct (opt_str_truthy p); reflexivity.
  - unfold inject_params. destruct (opt_str_truthy q); reflexivity.
Qed.

End Inject.

(** ** extract and EventCreate *)

Section Extract.
Context {R : Runtime}.
Import exceptions types client.

(** [EventCreate] is built from any arguments whose score passes the
    constraint, and keeps them as they are. *)
Lemma EventCreate_new_accepts (u : UUID) (s c : string)
    (role author summary : option string) (occ : option datetime)
    (sid : option string) (meta : dict) (uri key : option string)
    (score : option float) :
  importance_score_ok score = true ->
  EventCreate_new u s c role author summary occ sid meta uri key score
  = Return (mkEventCreate u s c role author summary occ sid meta uri key score).
Proof.
  intros H. unfold EventCreate_new. rewrite H. reflexivity.
Qed.

(** A score that fails the constraint is the only way construction fails. *)
Lemma EventCreate_new_rejects (u : UUID) (s c : string)
    (role author summary : option string) (occ : option datetime)
    (sid : option string) (meta : dict) (uri key : option string)
    (score : option float) :
  importance_score_ok score = false ->
  EventCreate_new u s c role author summary occ sid meta uri key score
  = Raise (PydanticValidationError "EventCreate").
Proof.
  intros H. unfold EventCreate_new. rewrite H. reflexivity.
Qed.

(** The [event_type] and [importance_score] entries of the dump. *)
Lemma model_dump_event_type (data : EventCreate) :
  get "event_type" (EventCreate_model_dump data) = Some (VStr (event_type data)).
Proof. reflexivity. Qed.

Lemma model_dump_importance_score (data : EventCreate) (x : float) :
  importance_score data = Some x ->
  get "importance_score" (EventCreate_model_dump data) = Some (VFloat x).
Proof.
  intros H. unfold EventCreate_model_dump. rewrite H.
  destruct (role data), (author data), (summary data), (occurred_at data),
    (session_id data), (source_uri data), (dedupe_key data); reflexivity.
Qed.

(** Without an effective anima id [extract] raises before it sends. *)
Lemma extract_without_anima (self : Elephantasm) (et : event_type_arg)
    (c : string) (a : option anima_arg) (sid role author : option string)
    (occ : option datetime) (meta : option dict) (score : option float) :
  anima_truthy (extract_aid self a) = false ->
  run (extract self et c a sid role author occ meta score)
  = (Raise anima_id_required, []).
Proof.
  intros H. unfold run, extract. rewrite H. reflexivity.
Qed.

(** With an anima id that is not a UUID, [extract] raises before it sends. *)
Lemma extract_bad_uuid (self : Elephantasm) (et : event_type_arg)
    (c : string) (a : option anima_arg) (sid role author : option string)
    (occ : option datetime) (meta : option dict) (score : option float) :
  anima_truthy (extract_aid self a) = true ->
  UUID_of_str (unwrap (option_map str_of_anima (extract_aid self a))) = None ->
  run (extract self et c a sid role author occ meta score)
  = (Raise (ValueError "badly formed hexadecimal UUID string"), []).
Proof.
  intros H Hu. unfold run, extract. rewrite H.
  cbv beta iota delta [negb bind lift UUID_new]. rewrite Hu. reflexivity.
Qed.

(** With a score that fails the constraint, [extract] raises before it
    sends. *)
Lemma extract_bad_score (self : Elephantasm) (et : event_type_arg)
    (c : string) (a : option anima_arg) (sid role author : option string)
    (occ : option datetime) (meta : option dict) (score : option float)
    (u : UUID) :
  anima_truthy (extract_aid self a) = true ->
  UUID_of_str (unwrap (option_map str_of_anima (extract_aid self a))) = Some u ->
  importance_score_ok score = false ->
  run (extract self et c a sid role author occ meta score)
  = (Raise (PydanticValidationError "EventCreate"), []).
Proof.
  intros H Hu Hs. unfold run, extract. rewrite H.
  cbv beta iota delta [negb bind lift UUID_new]. rewrite Hu.
  rewrite (EventCreate_new_rejects _ _ _ _ _ _ _ _ _ _ _ _ Hs). reflexivity.
Qed.

(** Otherwise [extract] sends exactly one POST, whose body is the dump of
    the [EventCreate] built from the arguments, and maps the answer. *)
Lemma extract_sends (self : Elephantasm) (et : event_type_arg)
    (c : string) (a : option anima_arg) (sid role author : option string)
    (occ : option datetime) (meta : option dict) (score : option float)
    (u : UUID) :
  anima_truthy (extract_aid self a) = true ->
  UUID_of_str (unwrap (option_map str_of_anima (extract_aid self a))) = Some u ->
  importance_score_ok score = true ->
  let data := mkEventCreate u (event_type_str_of et) c role author None occ sid
                (meta_or_empty meta) None None score in
  let rq := mkRequest POST "/events" [] (Some (VDict (EventCreate_model_dump data))) in
  run (extract self et c a sid role author occ meta score)
  = ((response <- _client self rq ;;
      result <- _handle_response response ;;
      splat Event_new result)%outcome,
     [rq]).
Proof.
  intros H Hu Hs data rq. unfold run, extract. rewrite H.
  cbv beta iota delta [negb bind lift UUID_new]. rewrite Hu.
  rewrite (EventCreate_new_accepts _ _ _ _ _ _ _ _ _ _ _ _ Hs).
  fold data. cbv beta iota delta [send app obind]. fold rq.
  destruct (_client self rq) as [response | e]; [ | reflexivity ].
  destruct (_handle_response response) as [result | e]; reflexivity.
Qed.

(** C6: with no anima id in the arguments and none on the client, [inject]
    and [extract] raise the configuration error and the transport is not
    called. *)
Theorem missing_anima_id_raises_locally (self : Elephantasm)
    (a : option anima_arg) :
  anima_truthy a = false ->
  opt_str_truthy (self_anima_id self) = false ->
  (forall q p, run (inject self a q p) = (Raise anima_id_required, []))
  /\ (forall et c sid role author occ meta score,
      run (extract self et c a sid role author occ meta score)
      = (Raise anima_id_required, [])).
Proof.
  intros Ha Hself. split.
  - intros q p. apply inject_without_anima.
    unfold inject_aid. rewrite Ha. exact Hself.
  - intros et c sid role author occ meta score. apply extract_without_anima.
    unfold extract_aid. rewrite Ha.
    destruct (self_anima_id self) as [s | ]; [ exact Hself | reflexivity ].
Qed.

(** C1, on the code: [extract] sends the event type as it was spelled.  An
    enum member and its dotted string are sent as the dotted string; the
    upper-snake-case name of a member is sent as that name, which is not
    the dotted string. *)
Theorem extract_sends_event_type_as_spelled (self : Elephantasm)
    (c : string) (a : option anima_arg) (sid role author : option string)
    (occ : option datetime) (meta : option dict) (score : option float)
    (u : UUID) (e : EventType) :
  anima_truthy (extract_aid self a) = true ->
  UUID_of_str (unwrap (option_map str_of_anima (extract_aid self a))) = Some u ->
  importance_score_ok score = true ->
  let sent et :=
    posted_event_type (snd (run (extract self et c a sid role author occ meta score))) in
  sent (OfEnum e) = Some (VStr (EventType_value e))
  /\ sent (OfStr (EventType_value e)) = Some (VStr (EventType_value e))
  /\ sent (OfStr (EventType_name e)) = Some (VStr (EventType_name e))
  /\ EventType_name e <> EventType_value e
  /\ (forall s, sent (OfStr s) = Some (VStr s)).
Proof.
  intros H Hu Hs sent.
  assert (Hsent : forall et, sent et = Some (VStr (event_type_str_of et))).
  { intros et. unfold sent.
    pose proof (extract_sends self et c a sid role author occ meta score u H Hu Hs) as E.
    cbv zeta in E. rewrite E. reflexivity. }
  split; [ apply Hsent | ].
  split; [ apply Hsent | ].
  split; [ apply Hsent | ].
  split; [ destruct e; discriminate | ].
  intros s. apply Hsent.
Qed.

(** C2, on the code: a string with no canonical mapping does not stop
    [extract]; the request is sent with that string as [event_type] and the
    result is the one the server's answer maps to. *)
Theorem extract_unknown_event_type_is_sent (self : Elephantasm)
    (s c : string) (a : option anima_arg) (sid role author : option string)
    (occ : option datetime) (meta : option dict) (score : option float)
    (u : UUID) :
  anima_truthy (extract_aid self a) = true ->
  UUID_of_str (unwrap (option_map str_of_anima (extract_aid self a))) = Some u ->
  importance_score_ok score = true ->
  exists rq,
    run (extract self (OfStr s) c a sid role author occ meta score)
    = ((response <- _client self rq ;;
        result <- _handle_response response ;;
        splat Event_new result)%outcome,
       [rq])
    /\ request_method rq = POST
    /\ request_url rq = "/events"
    /\ posted_event_type [rq] = Some (VStr s).
Proof.
  intros H Hu Hs.
  pose proof (extract_sends self (OfStr s) c a sid role author occ meta score u H Hu Hs) as E.
  cbv zeta in E. eexists. split; [ exact E | ]. repeat split.
Qed.

(** C3, on the code: [EventCreate] accepts every string as [event_type]
    and keeps it as it is. *)
Theorem EventCreate_accepts_any_event_type (u : UUID) (s c : string)
    (role author summary : option string) (occ : option datetime)
    (sid : option string) (meta : dict) (uri key : option string)
    (score : option float) :
  importance_score_ok score = true ->
  exists data,
    EventCreate_new u s c role author summary occ sid meta uri key score = Return data
    /\ event_type data = s.
Proof.
  intros H. eexists. split.
  - apply EventCreate_new_accepts. exact H.
  - reflexivity.
Qed.

(** C7: a score outside [0, 1] makes [extract] raise before it sends, the
    validation error of [EventCreate] when the anima id resolves; a score
    inside is accepted by [EventCreate], is the [importance_score] of its
    dump, and is the [importance_score] of every body [extract] sends. *)
Theorem importance_score_validated_locally (self : Elephantasm)
    (et : event_type_arg) (c : string) (a : option anima_arg)
    (sid role author : option string) (occ : option datetime)
    (meta : option dict) (x : float) :
  (ge_le_unit x = false ->
   exists e,
     run (extract self et c a sid role author occ meta (Some x)) = (Raise e, []))
  /\ (forall u,
      ge_le_unit x = false ->
      anima_truthy (extract_aid self a) = true ->
      UUID_of_str (unwrap (option_map str_of_anima (extract_aid self a))) = Some u ->
      run (extract self et c a sid role author occ meta (Some x))
      = (Raise (PydanticValidationError "EventCreate"), []))
  /\ (ge_le_unit x = true ->
      forall rq,
        In rq (snd (run (extract self et c a sid role author occ meta (Some x)))) ->
        posted_importance_score [rq] = Some (VFloat x))
  /\ (forall u,
      ge_le_unit x = true ->
      anima_truthy (extract_aid self a) = true ->
      UUID_of_str (unwrap (option_map str_of_anima (extract_aid self a))) = Some u ->
      exists rq,
        snd (run (extract self et c a sid role author occ meta (Some x))) = [rq]
        /\ request_method rq = POST
        /\ request_url rq = "/events"
        /\ posted_importance_score [rq] = Some (VFloat x))
  /\ (forall u s summary m uri key,
      ge_le_unit x = true ->
      exists data,
        EventCreate_new u s c role author summary occ sid m uri key (Some x)
        = Return data
        /\ importance_score data = Some x
        /\ get "importance_score" (EventCreate_model_dump data) = Some (VFloat x)).
Proof.
  assert (Hsent : forall u,
    ge_le_unit x = true ->
    anima_truthy (extract_aid self a) = true ->
    UUID_of_str (unwrap (option_map str_of_anima (extract_aid self a))) = Some u ->
    exists rq,
      snd (run (extract self et c a sid role author occ meta (Some x))) = [rq]
      /\ request_method rq = POST
      /\ request_url rq = "/events"
      /\ posted_importance_score [rq] = Some (VFloat x)).
  { intros u Hx H Hu.
    pose proof (extract_sends self et c a sid role author occ meta (Some x) u H Hu Hx) as E.
    cbv zeta in E. rewrite E. eexists. split; [ reflexivity | ].
    repeat split. unfold posted_importance_score. cbn [request_json].
    apply model_dump_importance_score. reflexivity. }
  split; [ | split; [ | split; [ | split ] ] ].
  - intros Hx.
    destruct (anima_truthy (extract_aid self a)) eqn:H.
    + destruct (UUID_of_str (unwrap (option_map str_of_anima (extract_aid self a))))
        as [u | ] eqn:Hu.
      * eexists. apply (extract_bad_score self et c a sid role author occ meta (Some x) u H Hu Hx).
      * eexists. apply (extract_bad_uuid self et c a sid role author occ meta (Some x) H Hu).
    + eexists. apply (extract_without_anima self et c a sid role author occ meta (Some x) H).
  - intros u Hx H Hu.
    apply (extract_bad_score self et c a sid role author occ meta (Some x) u H Hu Hx).
  - intros Hx rq Hin.
    destruct (anima_truthy (extract_aid self a)) eqn:H.
    + destruct (UUID_of_str (unwrap (option_map str_of_anima (extract_aid self a))))
        as [u | ] eqn:Hu.
      * destruct (Hsent u Hx eq_refl eq_refl) as [rq' [Hlog [_ [_ Hscore]]]].
        rewrite Hlog in Hin. destruct Hin as [<- | []]. exact Hscore.
      * rewrite (extract_bad_uuid self et c a sid role author occ meta (Some x) H Hu) in Hin.
        destruct Hin.
    + rewrite (extract_without_anima self et c a sid role author occ meta (Some x) H) in Hin.
      destruct Hin.
  - exact Hsent.
  - intros u s summary m uri key Hx. eexists. split; [ | split ].
    + apply EventCreate_new_accepts. exact Hx.
    + reflexivity.
    + apply model_dump_importance_score. reflexivity.
Qed.

End Extract.

(** ** The accessors of MemoryPack *)

Section Accessors.
Context {R : Runtime}.
Import types.

Lemma comprehension_Forall2 {A B : Type} (f : A -> outcome B) (l : list A) :
  forall bs, comprehension f l = Return bs ->
             Forall2 (fun a b => f a = Return b) l bs.
Proof.
  induction l as [ | a l IH ]; intros bs H; simpl in H.
  - injection H as <-. constructor.
  - destruct (f a) as [b | e] eqn:Hfa; simpl in H; [ | discriminate H ].
    destruct (comprehension f l) as [bs' | e] eqn:Hl; simpl in H; [ | discriminate H ].
    injection H as <-. constructor; [ exact Hfa | apply IH; reflexivity ].
Qed.

Lemma comprehension_total {A B : Type} (f : A -> outcome B) (l : list A) :
  Forall (fun a => exists b, f a = Return b) l ->
  exists bs, comprehension f l = Return bs /\ List.length bs = List.length l.
Proof.
  induction 1 as [ | a l [b Hb] _ [bs [IH Hlen]] ]; simpl.
  - exists []. split; reflexivity.
  - exists (b :: bs). rewrite Hb. simpl. rewrite IH. simpl.
    split; [ reflexivity | rewrite Hlen; reflexivity ].
Qed.

Lemma required_inv {A : Type} (t : string) (p : value -> option A)
    (k : string) (kw : dict) (a : A) :
  required t p k kw = Return a ->
  exists v, get k kw = Some v /\ p v = Some a.
Proof.
  unfold required. destruct (get k kw) as [v | ]; [ | discriminate ].
  destruct (p v) as [a' | ] eqn:Hp; [ | discriminate ].
  intros H. injection H as <-. exists v. split; [ reflexivity | exact Hp ].
Qed.

(** The score of a [ScoredMemory] is the validated [score] of the item it
    was built from. *)
Lemma ScoredMemory_score (item : value) (m : ScoredMemory) :
  splat ScoredMemory_new item = Return m ->
  exists kw v,
    item = VDict kw /\ get "score" kw = Some v /\ as_float v = Some (memory_score m).
Proof.
  destruct item as [ | | | | | | kw ]; try discriminate.
  cbn [splat]. unfold ScoredMemory_new. intros H.
  repeat match type of H with
         | obind ?o _ = Return _ =>
             let E := fresh "E" in
             destruct o eqn:E; cbn [obind] in H; [ | discriminate H ]
         end.
  injection H as <-. cbn [memory_score].
  match goal with
  | E : required _ as_float "score" kw = Return _ |- _ =>
      destruct (required_inv _ _ _ _ _ E) as [v [Hg Hv]]
  end.
  exists kw, v. repeat split; assumption.
Qed.

(** What [session_memories] computes when the section is a list. *)
Lemma session_memories_of_list (p : MemoryPack) (items : list value) :
  get "session_memories" (pack_content p) = Some (VList items) ->
  session_memories p = comprehension (splat ScoredMemory_new) items.
Proof.
  intros H. unfold session_memories, get_default. rewrite H.
  destruct (pack_content p) as [ | kv content ]; [ discriminate H | reflexivity ].
Qed.

Lemma Forall2_comprehension {A B : Type} (f : A -> outcome B)
    (l : list A) (bs : list B) :
  Forall2 (fun a b => f a = Return b) l bs -> comprehension f l = Return bs.
Proof.
  induction 1 as [ | a b l bs Hab _ IH ]; simpl.
  - reflexivity.
  - rewrite Hab. simpl. rewrite IH. reflexivity.
Qed.

Lemma splat_inv {A : Type} (f : dict -> outcome A) (item : value) (m : A) :
  splat f item = Return m -> exists kw, item = VDict kw /\ f kw = Return m.
Proof.
  destruct item as [ | | | | | | kw ]; try discriminate.
  intros H. exists kw. split; [ reflexivity | exact H ].
Qed.

(** The first element that fails decides what a comprehension raises. *)
Lemma comprehension_first_failure {A B : Type} (f : A -> outcome B)
    (before : list A) (a : A) (after : list A) (e : exn) :
  Forall (fun x => exists b, f x = Return b) before ->
  f a = Raise e ->
  comprehension f (before ++ a :: after) = Raise e.
Proof.
  induction 1 as [ | x before [b Hb] _ IH ]; intros Ha; simpl.
  - rewrite Ha. reflexivity.
  - rewrite Hb. simpl. rewrite (IH Ha). reflexivity.
Qed.

Lemma required_raises {A : Type} (t : string) (p : value -> option A)
    (k : string) (kw : dict) (e : exn) :
  required t p k kw = Raise e -> e = PydanticValidationError t.
Proof.
  unfold required. destruct (get k kw) as [v | ]; [ destruct (p v) | ];
    intros H; try discriminate H; injection H as <-; reflexivity.
Qed.

Lemma defaulted_raises {A : Type} (t : string) (p : value -> option A)
    (k : string) (default : A) (kw : dict) (e : exn) :
  defaulted t p k default kw = Raise e -> e = PydanticValidationError t.
Proof.
  unfold defaulted. destruct (get k kw) as [v | ]; [ destruct (p v) | ];
    intros H; try discriminate H; injection H as <-; reflexivity.
Qed.

(** Keyword arguments that do not validate as a [ScoredMemory] raise the
    validation error of that model, and nothing else. *)
Lemma ScoredMemory_new_raises (kw : dict) (e : exn) :
  ScoredMemory_new kw = Raise e -> e = PydanticValidationError "ScoredMemory".
Proof.
  unfold ScoredMemory_new. intros H.
  repeat match type of H with
         | obind ?o _ = Raise _ =>
             let E := fresh "E" in
             destruct o eqn:E; cbn [obind] in H;
             [ | injection H as <-;
                 first [ exact (required_raises _ _ _ _ _ E)
                       | exact (defaulted_raises _ _ _ _ _ _ E) ] ]
         end.
  discriminate H.
Qed.

(** Without an [id] or without a [score] they do not validate. *)
Lemma ScoredMemory_new_needs_id_and_score (kw : dict) :
  get "id" kw = None \/ get "score" kw = None ->
  ScoredMemory_new kw = Raise (PydanticValidationError "ScoredMemory").
Proof.
  intros H. destruct (ScoredMemory_new kw) as [m | e] eqn:Hm.
  - exfalso. pose proof Hm as Hm'.
    destruct (ScoredMemory_score (VDict kw) m Hm) as [kw' [v [Hkw [Hs _]]]].
    injection Hkw as <-.
    unfold ScoredMemory_new in Hm'.
    repeat match type of Hm' with
           | obind ?o _ = Return _ =>
               let E := fresh "E" in
               destruct o eqn:E; cbn [obind] in Hm'; [ | discriminate Hm' ]
           end.
    match goal with
    | E : required _ as_uuid "id" kw = Return _ |- _ =>
        destruct (required_inv _ _ _ _ _ E) as [w [Hw _]]
    end.
    destruct H as [H | H]; congruence.
  - rewrite (ScoredMemory_new_raises kw e Hm). reflexivity.
Qed.

(** C8, amended: the accessors read [content] only.  [session_memories]
    is empty when [content] is empty or has no such key.  On a list of
    elements it returns exactly when every element validates as a
    [ScoredMemory]: then one [ScoredMemory] per element, in order, which is
    the validation of that element and has the validated [score] of the
    element (the float itself when the element carries a float).  When some
    element does not validate, it raises what the first such element
    raises: the validation error of [ScoredMemory] for an object, always so
    for an object without [id] or without [score], and [TypeError] for an
    element that is not an object.  [identity] is [None] when [content] is
    empty or has no [identity] key, whatever [has_identity] says. *)
Theorem memory_pack_accessors_read_content (p : MemoryPack) :
  (pack_content p = [] -> session_memories p = Return [])
  /\ (get "session_memories" (pack_content p) = None -> session_memories p = Return [])
  /\ (forall items,
      get "session_memories" (pack_content p) = Some (VList items) ->
      (forall ms,
          session_memories p = Return ms ->
          List.length ms = List.length items
          /\ Forall2 (fun item m =>
               exists kw v,
                 item = VDict kw
                 /\ ScoredMemory_new kw = Return m
                 /\ get "score" kw = Some v
                 /\ as_float v = Some (memory_score m)
                 /\ (forall f, v = VFloat f -> memory_score m = f))
               items ms)
      /\ (Forall (fun item => exists m, splat ScoredMemory_new item = Return m) items ->
          exists ms, session_memories p = Return ms /\ List.length ms = List.length items)
      /\ (forall ms,
          session_memories p = Return ms
          <-> Forall2 (fun item m =>
                exists kw, item = VDict kw /\ ScoredMemory_new kw = Return m)
                items ms)
      /\ (forall before item after e,
          items = (before ++ item :: after)%list ->
          Forall (fun i => exists m, splat ScoredMemory_new i = Return m) before ->
          splat ScoredMemory_new item = Raise e ->
          session_memories p = Raise e
          /\ ((exists kw, item = VDict kw) ->
              e = PydanticValidationError "ScoredMemory")
          /\ ((forall kw, item <> VDict kw) -> exists msg, e = TypeError msg)))
  /\ (pack_content p = [] -> identity p = Return None)
  /\ (get "identity" (pack_content p) = None -> identity p = Return None)
  /\ (forall p',
      pack_content p' = pack_content p ->
      session_memories p' = session_memories p /\ identity p' = identity p)
  /\ (forall kw,
      get "id" kw = None \/ get "score" kw = None ->
      splat ScoredMemory_new (VDict kw)
      = Raise (PydanticValidationError "ScoredMemory"))
  /\ (forall item,
      (forall kw, item <> VDict kw) ->
      exists msg, splat ScoredMemory_new item = Raise (TypeError msg)).
Proof.
  split; [ | split; [ | split; [ | split; [ | split; [ | split; [ | split ] ] ] ] ] ].
  - intros H. unfold session_memories. rewrite H. reflexivity.
  - intros H. unfold session_memories, get_default. rewrite H.
    destruct (pack_content p); reflexivity.
  - intros items H. rewrite (session_memories_of_list p items H).
    split; [ | split; [ | split ] ].
    + intros ms Hms. apply comprehension_Forall2 in Hms.
      split.
      * symmetry. apply (Forall2_length Hms).
      * eapply Forall2_impl; [ | exact Hms ].
        intros item m Hm. cbv beta in Hm.
        destruct (ScoredMemory_score item m Hm) as [kw [v [Hi [Hg Hv]]]].
        exists kw, v. subst item. cbn [splat] in Hm.
        repeat split; try assumption.
        intros f Hf. rewrite Hf in Hv. cbn [as_float] in Hv.
        injection Hv as Hv. symmetry. exact Hv.
    + intros Hall. apply comprehension_total. exact Hall.
    + intros ms. split.
      * intros Hms. apply comprehension_Forall2 in Hms.
        eapply Forall2_impl; [ | exact Hms ].
        intros item m Hm. apply splat_inv. exact Hm.
      * intros Hms. apply Forall2_comprehension.
        eapply Forall2_impl; [ | exact Hms ].
        intros item m [kw [-> Hkw]]. exact Hkw.
    + intros before item after e -> Hbefore He.
      split; [ apply comprehension_first_failure; assumption | ]. split.
      * intros [kw ->]. cbn [splat] in He.
        apply (ScoredMemory_new_raises kw e He).
      * intros Hno.
        destruct item as [ | | | | | | kw ]; cbn [splat] in He;
          try (injection He as <-; eexists; reflexivity).
        exfalso. apply (Hno kw). reflexivity.
  - intros H. unfold identity. rewrite H. reflexivity.
  - intros H. unfold identity, get_default. rewrite H.
    destruct (pack_content p); reflexivity.
  - intros p' H. unfold session_memories, identity. rewrite H. split; reflexivity.
  - intros kw H. cbn [splat]. apply ScoredMemory_new_needs_id_and_score. exact H.
  - intros item Hno.
    destruct item as [ | | | | | | kw ]; try (eexists; reflexivity).
    exfalso. apply (Hno kw). reflexivity.
Qed.

End Accessors.

(** ** The properties on the fixtures *)

Module on_fixtures.

Import types client.

(** A 404 with a [detail], as in [test_inject_not_found]. *)
Lemma handle_response_error_dispatch_witness :
  client._handle_response (R := test_runtime)
    (client.mkResponse 404 "{...}" (Some (VDict [("detail", VStr "Anima not found")])))
  = Raise (ApiError (exceptions.mkError exceptions.NotFoundError_cls
                       (VStr "Anima not found") (Some 404))).
Proof.
  pose proof (handle_response_error_dispatch (R := test_runtime)
    (client.mkResponse 404 "{...}" (Some (VDict [("detail", VStr "Anima not found")])))
    eq_refl) as H.
  destruct H as (_ & _ & _ & _ & H404 & _).
  exact (H404 eq_refl).
Defined.

(** A 502 and a 503 with the same body. *)
Lemma server_error_status_code_is_500_witness :
  client._handle_response (R := test_runtime)
    (client.mkResponse 503 "Bad gateway" None)
  = client._handle_response (R := test_runtime)
    (client.mkResponse 502 "Bad gateway" None).
Proof.
  refine (proj2 (server_error_status_code_is_500 (R := test_runtime)
    (client.mkResponse 502 "Bad gateway" None) _)
    (client.mkResponse 503 "Bad gateway" None) _ eq_refl eq_refl);
    simpl; lia.
Defined.

(** [test_inject_returns_none_when_no_packs]. *)
Lemma inject_null_body_is_absent_witness :
  fst (run (inject (R := test_runtime) (fixtures.client fixtures.no_packs)
              None None None))
  = Return None.
Proof.
  exact (proj1 (inject_null_body_is_absent (R := test_runtime)
                  (fixtures.client fixtures.no_packs) None None None
                  (mkRequest GET
                     "/animas/123e4567-e89b-12d3-a456-426614174000/memory-packs/latest"
                     [] None)
                  (mkResponse 200 "null" (Some VNone))
                  eq_refl eq_refl)
           eq_refl eq_refl).
Defined.

(** [test_inject_requires_anima_id] and [test_extract_requires_anima_id]. *)
Lemma missing_anima_id_raises_locally_witness :
  run (inject (R := test_runtime) (fixtures.client_without_anima fixtures.created)
         None None None)
  = (Raise anima_id_required, [])
  /\ run (extract (R := test_runtime) (fixtures.client_without_anima fixtures.created)
            (OfEnum MESSAGE_IN) "Hello!" None None None None None None None)
     = (Raise anima_id_required, []).
Proof.
  destruct (missing_anima_id_raises_locally (R := test_runtime)
              (fixtures.client_without_anima fixtures.created) None
              eq_refl eq_refl) as [Hinject Hextract].
  split.
  - exact (Hinject None None).
  - exact (Hextract (OfEnum MESSAGE_IN) "Hello!" None None None None None None).
Defined.

(** An empty [anima_id], [query] and [preset] on the [client] fixture. *)
Lemma inject_empty_strings_are_absent_witness :
  run (inject (R := test_runtime) (fixtures.client_without_anima fixtures.no_packs)
         (Some (AnimaStr "")) (Some "") (Some ""))
  = (Raise anima_id_required, []).
Proof.
  destruct (inject_empty_strings_are_absent (R := test_runtime)
              (fixtures.client_without_anima fixtures.no_packs)
              None (Some "") (Some ""))
    as (_ & _ & H & _).
  exact (H eq_refl).
Defined.

(** The upper-snake-case name of [TOOL_CALL] on the [client] fixture. *)
Lemma extract_sends_event_type_as_spelled_witness :
  posted_event_type
    (snd (run (extract (R := test_runtime) (fixtures.client fixtures.created)
                 (OfStr "TOOL_CALL") "Hello!" None None None None None None None)))
  = Some (VStr "TOOL_CALL").
Proof.
  pose proof (extract_sends_event_type_as_spelled (R := test_runtime)
                (fixtures.client fixtures.created) "Hello!" None None None None
                None None None fixtures.anima_id TOOL_CALL
                eq_refl eq_refl eq_refl) as H.
  cbv zeta in H. destruct H as (_ & _ & H & _). exact H.
Defined.

(** ["TOOL_CALL_EXTRA"] on the [client] fixture. *)
Lemma extract_unknown_event_type_is_sent_witness :
  exists rq,
    run (extract (R := test_runtime) (fixtures.client fixtures.created)
           (OfStr "TOOL_CALL_EXTRA") "Hello!" None None None None None None None)
    = ((response <- fixtures.created rq ;;
        result <- _handle_response (R := test_runtime) response ;;
        splat Event_new result)%outcome,
       [rq])
    /\ request_method rq = POST
    /\ request_url rq = "/events"
    /\ posted_event_type [rq] = Some (VStr "TOOL_CALL_EXTRA").
Proof.
  exact (extract_unknown_event_type_is_sent (R := test_runtime)
           (fixtures.client fixtures.created) "TOOL_CALL_EXTRA" "Hello!"
           None None None None None None None fixtures.anima_id
           eq_refl eq_refl eq_refl).
Defined.

(** [test_invalid_uppercase_rejected], on the code. *)
Lemma EventCreate_accepts_any_event_type_witness :
  exists data,
    EventCreate_new (R := test_runtime) fixtures.anima_id "TOOL_CALL" "test"
      None None None None None [] None None None = Return data
    /\ event_type data = "TOOL_CALL".
Proof.
  exact (EventCreate_accepts_any_event_type (R := test_runtime)
           fixtures.anima_id "TOOL_CALL" "test" None None None None None []
           None None None eq_refl).
Defined.

(** A score of 1.5 and a score of 0.8 on the [client] fixture. *)
Lemma importance_score_validated_locally_witness :
  run (extract (R := test_runtime) (fixtures.client fixtures.created)
         (OfEnum MESSAGE_IN) "Hello!" None None None None None None
         (Some 1.5%float))
  = (Raise (PydanticValidationError "EventCreate"), [])
  /\ exists rq,
      snd (run (extract (R := test_runtime) (fixtures.client fixtures.created)
                  (OfEnum MESSAGE_IN) "Hello!" None None None None None None
                  (Some 0.8%float)))
      = [rq]
      /\ request_method rq = POST
      /\ request_url rq = "/events"
      /\ posted_importance_score [rq] = Some (VFloat 0.8%float).
Proof.
  split.
  - exact (proj1 (proj2 (importance_score_validated_locally (R := test_runtime)
             (fixtures.client fixtures.created) (OfEnum MESSAGE_IN) "Hello!"
             None None None None None None 1.5%float))
             fixtures.anima_id eq_refl eq_refl eq_refl).
  - exact (proj1 (proj2 (proj2 (proj2 (importance_score_validated_locally
             (R := test_runtime)
             (fixtures.client fixtures.created) (OfEnum MESSAGE_IN) "Hello!"
             None None None None None None 0.8%float))))
             fixtures.anima_id eq_refl eq_refl eq_refl).
Defined.

(** The pack fixture without its identity section: [has_identity] is true,
    [identity] is [None], and the one session memory keeps its score. *)
Lemma memory_pack_accessors_read_content_witness :
  pack_has_identity (fixtures.pack false) = true
  /\ identity (fixtures.pack false) = Return None
  /\ exists ms,
      session_memories (fixtures.pack false) = Return ms /\ List.length ms = 1%nat.
Proof.
  destruct (memory_pack_accessors_read_content (R := test_runtime) (fixtures.pack false))
    as (_ & _ & Hitems & _ & Hidentity & _).
  split; [ reflexivity | ].
  split; [ exact (Hidentity eq_refl) | ].
  apply (proj1 (proj2 (Hitems [VDict fixtures.mock_session_memory] eq_refl))).
  repeat constructor. eexists. reflexivity.
Defined.

(** A pack whose only session memory has a score and no [id]: the accessor
    raises, so it does not return one [ScoredMemory] for that element. *)
Lemma session_memories_raises_on_item_without_id :
  get "session_memories" fixtures.content_without_memory_id
  = Some (VList [VDict [("summary", VStr "User asked about weather");
                        ("score", VFloat 0.9%float)]])
  /\ session_memories (fixtures.pack_with_content fixtures.content_without_memory_id)
     = Raise (PydanticValidationError "ScoredMemory")
  /\ ~ (exists ms,
         session_memories (fixtures.pack_with_content fixtures.content_without_memory_id)
         = Return ms
         /\ List.length ms = 1%nat).
Proof.
  split; [ reflexivity | ].
  split; [ reflexivity | ].
  intros [ms [H _]]. discriminate H.
Qed.

(** *** The same fixtures, evaluated *)

Example extract_TOOL_CALL_EXTRA_is_posted :
  run (extract (R := test_runtime) (fixtures.client fixtures.created)
         (OfStr "TOOL_CALL_EXTRA") "Hello!" None None None None None None None)
  = (Return fixtures.event,
     [mkRequest POST "/events" []
        (Some (VDict [("anima_id", VStr fixtures.anima_id);
                      ("event_type", VStr "TOOL_CALL_EXTRA");
                      ("content", VStr "Hello!");
                      ("meta", VDict [])]))]).
Proof. reflexivity. Qed.

Example extract_empty_event_type_is_posted :
  run (extract (R := test_runtime) (fixtures.client fixtures.created)
         (OfStr "") "Hello!" None None None None None None None)
  = (Return fixtures.event,
     [mkRequest POST "/events" []
        (Some (VDict [("anima_id", VStr fixtures.anima_id);
                      ("event_type", VStr "");
                      ("content", VStr "Hello!");
                      ("meta", VDict [])]))]).
Proof. reflexivity. Qed.

Example extract_Tool_Call_is_posted_verbatim :
  posted_event_type
    (snd (run (extract (R := test_runtime) (fixtures.client fixtures.created)
                 (OfStr "Tool_Call") "Hello!" None None None None None None None)))
  = Some (VStr "Tool_Call").
Proof. reflexivity. Qed.

Example session_memories_of_fixture :
  option_map (map memory_score)
    (match session_memories (fixtures.pack true) with
     | Return ms => Some ms
     | Raise _ => None
     end)
  = Some [0.9%float].
Proof. reflexivity. Qed.

Example identity_of_fixture :
  identity (fixtures.pack true)
  = Return (Some (mkIdentityContext
      (Some "INTJ") (Some "direct")
      (Some [("core_values", VList [VStr "accuracy"; VStr "efficiency"])])
      (Some "You are a thoughtful assistant."))).
Proof. reflexivity. Qed.

End on_fixtures.

(** * Further properties *)

(** ** Strings *)

Lemma append_empty_r (s : string) : s ++ "" = s.
Proof.
  induction s as [ | c s IH ]; simpl; [ reflexivity | rewrite IH; reflexivity ].
Qed.

Lemma append_assoc (a b c : string) : (a ++ b) ++ c = a ++ (b ++ c).
Proof.
  induction a as [ | x a IH ]; simpl; [ reflexivity | rewrite IH; reflexivity ].
Qed.

Lemma rev_string_acc (s acc : string) :
  rev_string acc s = rev_string "" s ++ acc.
Proof.
  revert acc. induction s as [ | c s IH ]; intros acc; simpl.
  - reflexivity.
  - rewrite (IH (String c acc)), (IH (String c "")).
    rewrite append_assoc. reflexivity.
Qed.

Lemma rev_string_append (a b : string) :
  rev_string "" (a ++ b) = rev_string "" b ++ rev_string "" a.
Proof.
  induction a as [ | c a IH ]; simpl.
  - rewrite append_empty_r. reflexivity.
  - rewrite (rev_string_acc (a ++ b)), (rev_string_acc a), IH.
    rewrite append_assoc. reflexivity.
Qed.

Lemma rev_string_involutive (s : string) :
  rev_string "" (rev_string "" s) = s.
Proof.
  induction s as [ | c s IH ]; simpl.
  - reflexivity.
  - rewrite (rev_string_acc s), rev_string_append, IH. reflexivity.
Qed.

Lemma rev_string_slashes (n : nat) : rev_string "" (slashes n) = slashes n.
Proof.
  induction n as [ | n IH ]; simpl.
  - reflexivity.
  - rewrite rev_string_acc, IH. clear IH.
    induction n as [ | n IH ]; simpl; [ reflexivity | rewrite IH; reflexivity ].
Qed.

(** What [lstrip_slash] removes is a run of slashes, and what it leaves does
    not start with one. *)
Lemma lstrip_slash_spec (s : string) :
  exists n,
    s = slashes n ++ lstrip_slash s
    /\ forall t, lstrip_slash s <> String "/" t.
Proof.
  induction s as [ | c s [n [Hs Hn]] ].
  - exists O. split; [ reflexivity | discriminate ].
  - destruct (Ascii.eqb c "/") eqn:Hc.
    + apply Ascii.eqb_eq in Hc. subst c. exists (S n). simpl. split.
      * f_equal. exact Hs.
      * exact Hn.
    + exists O. apply Ascii.eqb_neq in Hc.
      assert (Hl : lstrip_slash (String c s) = String c s).
      { destruct c as [[] [] [] [] [] [] [] []]; try reflexivity.
        exfalso. apply Hc. reflexivity. }
      rewrite Hl. split; [ reflexivity | ].
      intros t Ht. injection Ht as Hc' _. exact (Hc Hc').
Qed.

(** [rstrip_slash] removes a run of slashes at the end and leaves a string
    that does not end with one. *)
Lemma rstrip_slash_spec (s : string) :
  (exists n, s = rstrip_slash s ++ slashes n)
  /\ forall t, rstrip_slash s <> t ++ "/".
Proof.
  unfold rstrip_slash.
  destruct (lstrip_slash_spec (rev_string "" s)) as [n [Hs Hn]].
  split.
  - exists n.
    rewrite <- (rev_string_involutive s) at 1. rewrite Hs at 1.
    rewrite rev_string_append, rev_string_slashes. reflexivity.
  - intros t Ht.
    apply (f_equal (rev_string "")) in Ht.
    rewrite rev_string_involutive, rev_string_append in Ht.
    simpl in Ht. exact (Hn _ Ht).
Qed.

(** ** Response handling, the other way round *)

Section ResponseMappingConverse.
Context {R : Runtime}.
Import exceptions client.

Lemma is_success_iff (r : Response) :
  is_success r = true <-> 200 <= status_code r <= 299.
Proof.
  unfold is_success. rewrite andb_true_iff, !Z.leb_le. tauto.
Qed.

(** X1: [_handle_response] returns a value exactly when the status is in
    200..299 and the body decodes, and the value is the decoded body,
    whatever it is. *)
Theorem handle_response_returns_iff (r : Response) (v : value) :
  _handle_response r = Return v
  <-> 200 <= status_code r <= 299 /\ json r = Some v.
Proof.
  rewrite <- is_success_iff. split.
  - intros H. destruct (is_success r) eqn:Hs.
    + unfold _handle_response in H. rewrite Hs in H.
      destruct (json r) as [v' | ]; [ | discriminate H ].
      injection H as <-. split; reflexivity.
    + destruct (handle_response_raises r Hs) as [e He].
      rewrite He in H. discriminate H.
  - intros [Hs Hj]. unfold _handle_response. rewrite Hs, Hj. reflexivity.
Qed.

(** X2: the class of the error raised identifies the status, and the other
    way round: [AuthenticationError] is raised on 401 only, [NotFoundError]
    on 404 only, [ValidationError] on 422 only, [RateLimitError] on 429
    only, [ServerError] on 500 and above only, the root class on the rest;
    the [status_code] of the error is the status of the response below 500
    and 500 from there on. *)
Theorem error_class_identifies_status (r : Response) (e : Error) :
  _handle_response r = Raise (ApiError e) ->
  ~ (200 <= status_code r <= 299)
  /\ (class_of e = AuthenticationError_cls <-> status_code r = 401)
  /\ (class_of e = NotFoundError_cls <-> status_code r = 404)
  /\ (class_of e = ValidationError_cls <-> status_code r = 422)
  /\ (class_of e = RateLimitError_cls <-> status_code r = 429)
  /\ (class_of e = ServerError_cls <-> status_code r >= 500)
  /\ (class_of e = ElephantasmError_cls
      <-> status_code r < 500 /\ status_code r <> 401 /\ status_code r <> 404
          /\ status_code r <> 422 /\ status_code r <> 429)
  /\ exceptions.status_code e
     = Some (if status_code r >=? 500 then 500 else status_code r).
Proof.
  intros H.
  destruct (is_success r) eqn:Hs.
  { unfold _handle_response in H. rewrite Hs in H.
    destruct (json r); discriminate H. }
  assert (Hns : ~ (200 <= status_code r <= 299)).
  { intros Hr. apply is_success_iff in Hr. congruence. }
  split; [ exact Hns | ].
  unfold _handle_response in H. rewrite Hs in H. cbv zeta in H.
  destruct (status_code r =? 401) eqn:H401;
    [ | destruct (status_code r =? 404) eqn:H404;
        [ | destruct (status_code r =? 422) eqn:H422;
            [ | destruct (status_code r =? 429) eqn:H429;
                [ | destruct (status_code r >=? 500) eqn:H500 ] ] ] ];
    injection H as <-; cbn [class_of exceptions.status_code AuthenticationError
      NotFoundError ValidationError RateLimitError ServerError ElephantasmError];
    repeat match goal with
           | E : (_ =? _) = true |- _ => apply Z.eqb_eq in E
           | E : (_ =? _) = false |- _ => apply Z.eqb_neq in E
           | E : (_ >=? _) = true |- _ => rewrite Z.geb_leb in E; apply Z.leb_le in E
           | E : (_ >=? _) = false |- _ => rewrite Z.geb_leb in E; apply Z.leb_gt in E
           end;
    try match goal with
        | E : status_code r = ?n |- _ => rewrite E in *
        end;
    repeat split; intros; try discriminate; try lia; try reflexivity;
    try (destruct (status_code r >=? 500) eqn:G;
         [ rewrite Z.geb_leb in G; apply Z.leb_le in G; try lia; reflexivity
         | rewrite Z.geb_leb in G; apply Z.leb_gt in G; try lia; reflexivity ]).
Qed.

End ResponseMappingConverse.

(** ** Construction of the client *)

Section Construction.
Import client.

Variable settings : ElephantasmSettings.
Variable httpx_Client : string -> list (string * string) -> Z -> outcome Transport.

Lemma opt_str_truthy_or_str (a b : option string) :
  opt_str_truthy (or_str a b) = opt_str_truthy a || opt_str_truthy b.
Proof.
  unfold or_str. destruct (opt_str_truthy a) eqn:Ha; simpl.
  - exact Ha.
  - reflexivity.
Qed.

(** What [__init__] does once the key is there: it returns the client built
    around the transport of [httpx.Client], or raises what that raises. *)
Lemma init_with_key (api_key anima_id endpoint : option string)
    (timeout : option Z) :
  opt_str_truthy (or_str api_key (settings_api_key settings)) = true ->
  let key := or_str api_key (settings_api_key settings) in
  let kept_endpoint :=
    rstrip_slash (unwrap (or_str endpoint (Some (settings_endpoint settings)))) in
  let kept_timeout :=
    match timeout with
    | Some t => if t =? 0 then settings_timeout settings else t
    | None => settings_timeout settings
    end in
  __init__ settings httpx_Client api_key anima_id endpoint timeout
  = (transport <- httpx_Client (kept_endpoint ++ "/api")
        [("Authorization", "Bearer " ++ unwrap key);
         ("Content-Type", "application/json")]
        kept_timeout ;;
     Return (mkElephantasm key (or_str anima_id (settings_anima_id settings))
               kept_endpoint kept_timeout transport))%outcome.
Proof.
  intros H. unfold __init__. rewrite H. reflexivity.
Qed.

(** X3: the endpoint a client keeps does not end with a slash: it is the
    endpoint given (the one of the settings when none or an empty one is
    given) without its trailing slashes, and the transport of the client is
    the one [httpx.Client] returned for that endpoint followed by [/api]. *)
Theorem init_strips_trailing_slashes (api_key anima_id endpoint : option string)
    (timeout : option Z) (c : Elephantasm) :
  __init__ settings httpx_Client api_key anima_id endpoint timeout = Return c ->
  (forall t, self_endpoint c <> t ++ "/")
  /\ (exists n,
      unwrap (or_str endpoint (Some (settings_endpoint settings)))
      = self_endpoint c ++ slashes n)
  /\ ((forall t,
       unwrap (or_str endpoint (Some (settings_endpoint settings))) <> t ++ "/") ->
      self_endpoint c = unwrap (or_str endpoint (Some (settings_endpoint settings))))
  /\ httpx_Client (self_endpoint c ++ "/api")
       [("Authorization", "Bearer " ++ unwrap (self_api_key c));
        ("Content-Type", "application/json")]
       (self_timeout c)
     = Return (_client c).
Proof.
  intros H.
  destruct (opt_str_truthy (or_str api_key (settings_api_key settings))) eqn:Hk;
    [ | unfold __init__ in H; rewrite Hk in H; discriminate H ].
  rewrite (init_with_key api_key anima_id endpoint timeout Hk) in H.
  cbv zeta in H.
  destruct (httpx_Client _ _ _) as [transport | e] eqn:Ht; [ | discriminate H ].
  cbn [obind] in H. injection H as <-.
  cbn [self_endpoint self_api_key self_timeout _client].
  set (given := unwrap (or_str endpoint (Some (settings_endpoint settings)))) in *.
  destruct (rstrip_slash_spec given) as [[n Hn] Hno].
  split; [ exact Hno | ].
  split; [ exists n; exact Hn | ].
  split; [ | exact Ht ].
  intros Hgiven. destruct n as [ | n ].
  - rewrite Hn at 2. cbn [slashes]. rewrite append_empty_r. reflexivity.
  - exfalso. apply (Hgiven (rstrip_slash given ++ slashes n)).
    rewrite Hn at 1. rewrite append_assoc. f_equal.
    clear. induction n as [ | n IH ]; simpl; [ reflexivity | rewrite <- IH; reflexivity ].
Qed.

(** X4: construction raises the configuration error exactly when neither
    the [api_key] argument nor the one of the settings is a non-empty
    string, and then [httpx.Client] plays no part.  With a key it returns
    exactly when [httpx.Client] returns a transport, and raises what
    [httpx.Client] raises otherwise.  The key kept is non-empty, the
    argument when that is non-empty; an empty [anima_id] and a [timeout] of
    0 count as not given. *)
Theorem init_needs_an_api_key (api_key anima_id endpoint : option string)
    (timeout : option Z) :
  let missing :=
    ValueError
      "API key required. Provide api_key parameter or set ELEPHANTASM_API_KEY." in
  let key := or_str api_key (settings_api_key settings) in
  let built :=
    httpx_Client
      (rstrip_slash (unwrap (or_str endpoint (Some (settings_endpoint settings))))
       ++ "/api")
      [("Authorization", "Bearer " ++ unwrap key);
       ("Content-Type", "application/json")]
      match timeout with
      | Some t => if t =? 0 then settings_timeout settings else t
      | None => settings_timeout settings
      end in
  (__init__ settings httpx_Client api_key anima_id endpoint timeout = Raise missing
   <-> (opt_str_truthy api_key = false
        /\ opt_str_truthy (settings_api_key settings) = false)
       \/ built = Raise missing)
  /\ (opt_str_truthy api_key = false ->
      opt_str_truthy (settings_api_key settings) = false ->
      forall httpx_Client',
        __init__ settings httpx_Client' api_key anima_id endpoint timeout
        = Raise missing)
  /\ ((exists c,
         __init__ settings httpx_Client api_key anima_id endpoint timeout = Return c)
      <-> (opt_str_truthy api_key = true
           \/ opt_str_truthy (settings_api_key settings) = true)
          /\ exists transport, built = Return transport)
  /\ (forall e,
      opt_str_truthy api_key = true
      \/ opt_str_truthy (settings_api_key settings) = true ->
      built = Raise e ->
      __init__ settings httpx_Client api_key anima_id endpoint timeout = Raise e)
  /\ (forall c,
      __init__ settings httpx_Client api_key anima_id endpoint timeout = Return c ->
      opt_str_truthy (self_api_key c) = true
      /\ (opt_str_truthy api_key = true -> self_api_key c = api_key)
      /\ (opt_str_truthy api_key = false ->
          self_api_key c = settings_api_key settings)
      /\ (opt_str_truthy anima_id = false ->
          self_anima_id c = settings_anima_id settings)
      /\ (timeout = Some 0 -> self_timeout c = settings_timeout settings)).
Proof.
  intros missing key built.
  pose proof (opt_str_truthy_or_str api_key (settings_api_key settings)) as Hor.
  destruct (opt_str_truthy (or_str api_key (settings_api_key settings))) eqn:Hk.
  - pose proof (init_with_key api_key anima_id endpoint timeout Hk) as E.
    cbv zeta in E. fold key in E. fold built in E. clearbody built.
    symmetry in Hor. apply orb_true_iff in Hor.
    split; [ | split; [ | split; [ | split ] ] ].
    + rewrite E. split.
      * intros H. right. destruct built as [t | e]; cbn [obind] in H;
          [ discriminate H | injection H as ->; reflexivity ].
      * intros [[Ha Hb] | H]; [ destruct Hor; congruence | ].
        rewrite H. reflexivity.
    + intros Ha Hb. destruct Hor; congruence.
    + rewrite E. split.
      * intros [c H]. split; [ exact Hor | ].
        destruct built as [t | e]; [ exists t; reflexivity | discriminate H ].
      * intros [_ [t Ht]]. rewrite Ht. eexists. reflexivity.
    + intros e _ He. rewrite E, He. reflexivity.
    + intros c H. rewrite E in H.
      destruct built as [t | e]; [ | discriminate H ].
      cbn [obind] in H. injection H as <-.
      cbn [self_api_key self_anima_id self_timeout].
      split; [ exact Hk | ].
      unfold key, or_str.
      split; [ intros Ha; rewrite Ha; reflexivity | ].
      split; [ intros Ha; rewrite Ha; reflexivity | ].
      split; [ intros Ha; rewrite Ha; reflexivity | ].
      intros ->. reflexivity.
  - symmetry in Hor. apply orb_false_iff in Hor. destruct Hor as [Ha Hb].
    assert (E : forall h,
      __init__ settings h api_key anima_id endpoint timeout = Raise missing).
    { intros h. unfold __init__. rewrite Hk. reflexivity. }
    split; [ | split; [ | split; [ | split ] ] ].
    + split; [ intros _; left; split; assumption | intros _; apply E ].
    + intros _ _ h. apply E.
    + split.
      * intros [c H]. rewrite E in H. discriminate H.
      * intros [[H | H] _]; congruence.
    + intros e [H | H]; congruence.
    + intros c H. rewrite E in H. discriminate H.
Qed.

End Construction.

(** ** Validation of keyword arguments *)

(** Splits a hypothesis [x <- o ;; k = Return a] into the results of its
    steps. *)
Ltac invert_binds H :=
  repeat match type of H with
         | obind ?o _ = Return _ =>
             let E := fresh "E" in
             destruct o eqn:E; cbn [obind] in H; [ | discriminate H ]
         end.

Section Validation.
Context {R : Runtime}.
Import types.

Lemma defaulted_inv {A : Type} (t : string) (p : value -> option A)
    (k : string) (default a : A) (kw : dict) :
  defaulted t p k default kw = Return a ->
  (get k kw = None /\ a = default)
  \/ (exists v, get k kw = Some v /\ p v = Some a).
Proof.
  unfold defaulted. destruct (get k kw) as [v | ].
  - destruct (p v) as [a' | ] eqn:Hp; [ | discriminate ].
    intros H. injection H as <-. right. exists v. split; [ reflexivity | exact Hp ].
  - intros H. injection H as <-. left. split; reflexivity.
Qed.

Lemma as_dict_inv (v : value) (d : dict) : as_dict v = Some d -> v = VDict d.
Proof.
  destruct v; try discriminate. intros H. injection H as <-. reflexivity.
Qed.

Lemma as_str_inv (v : value) (s : string) : as_str v = Some s -> v = VStr s.
Proof.
  destruct v; try discriminate. intros H. injection H as <-. reflexivity.
Qed.

(** The content of a pack is the [content] object of the keyword arguments,
    and is empty when there is none. *)
Lemma MemoryPack_new_content (kw : dict) (pack : MemoryPack) :
  MemoryPack_new kw = Return pack ->
  (get "content" kw = None /\ pack_content pack = [])
  \/ get "content" kw = Some (VDict (pack_content pack)).
Proof.
  unfold MemoryPack_new. intros H. invert_binds H.
  injection H as <-. cbn [pack_content].
  match goal with
  | E : defaulted _ as_dict "content" _ kw = Return _ |- _ =>
      destruct (defaulted_inv _ _ _ _ _ _ E) as [[Hg Hd] | [v [Hg Hv]]]
  end.
  - left. split; assumption.
  - right. rewrite Hg. apply as_dict_inv in Hv. rewrite Hv. reflexivity.
Qed.

End Validation.

(** ** inject, the rest *)

Section InjectMore.
Context {R : Runtime}.
Import exceptions types client.

(** X5: [inject] calls the transport at most once, with a GET that has no
    body, on the path of the effective anima id: the argument when it is a
    UUID or a non-empty string, else the one of the client.  Its parameters
    are [query] and [preset], each present exactly when non-empty and then
    unchanged, and nothing else. *)
Theorem inject_request_shape (self : Elephantasm) (a : option anima_arg)
    (q p : option string) :
  ((opt_str_truthy (inject_aid self a) = false
    /\ snd (run (inject self a q p)) = [])
   \/ (exists aid,
        inject_aid self a = Some aid
        /\ str_truthy aid = true
        /\ snd (run (inject self a q p))
           = [mkRequest GET ("/animas/" ++ aid ++ "/memory-packs/latest")
                (inject_params q p) None]))
  /\ (anima_truthy a = true -> inject_aid self a = option_map str_of_anima a)
  /\ (anima_truthy a = false -> inject_aid self a = self_anima_id self)
  /\ get_param "query" (inject_params q p) = (if opt_str_truthy q then q else None)
  /\ get_param "preset" (inject_params q p) = (if opt_str_truthy p then p else None)
  /\ (forall k, k <> "query" -> k <> "preset" ->
      get_param k (inject_params q p) = None).
Proof.
  split; [ | split; [ | split; [ | split; [ | split ] ] ] ].
  - destruct (opt_str_truthy (inject_aid self a)) eqn:H.
    + right. destruct (inject_aid self a) as [aid | ] eqn:Ha; [ | discriminate H ].
      exists aid. split; [ reflexivity | ]. split; [ exact H | ].
      assert (H' : opt_str_truthy (inject_aid self a) = true)
        by (rewrite Ha; exact H).
      pose proof (inject_with_anima self a q p H') as E. cbv zeta in E.
      rewrite E, Ha. reflexivity.
    + left. split; [ reflexivity | ].
      rewrite (inject_without_anima self a q p H). reflexivity.
  - intros H. unfold inject_aid. rewrite H. reflexivity.
  - intros H. unfold inject_aid. rewrite H. reflexivity.
  - unfold inject_params.
    destruct (opt_str_truthy q) eqn:Hq.
    + destruct q as [s | ]; [ reflexivity | discriminate Hq ].
    + destruct (opt_str_truthy p); reflexivity.
  - unfold inject_params.
    destruct (opt_str_truthy q), (opt_str_truthy p) eqn:Hp;
      try reflexivity; (destruct p as [s | ]; [ reflexivity | discriminate Hp ]).
  - intros k Hq Hp. apply String.eqb_neq in Hq, Hp. unfold inject_params.
    destruct (opt_str_truthy q), (opt_str_truthy p); cbn [app get_param];
      rewrite ?Hq, ?Hp; reflexivity.
Qed.

(** X6: what the transport or the server refuses reaches the caller of
    [inject] unchanged: an exception of the transport is raised as it is,
    a response outside 2xx raises the error [_handle_response] maps it to,
    and a 2xx body that does not decode raises the decoding error.  In each
    case exactly one request was made. *)
Theorem inject_propagates_failures (self : Elephantasm) (a : option anima_arg)
    (q p : option string) (rq : Request) :
  snd (run (inject self a q p)) = [rq] ->
  (forall e, _client self rq = Raise e ->
             run (inject self a q p) = (Raise e, [rq]))
  /\ (forall r, _client self rq = Return r -> is_success r = false ->
      exists e, _handle_response r = Raise (ApiError e)
                /\ run (inject self a q p) = (Raise (ApiError e), [rq]))
  /\ (forall r, _client self rq = Return r -> is_success r = true ->
      json r = None ->
      run (inject self a q p) = (Raise JSONDecodeError, [rq])).
Proof.
  intros Hlog.
  destruct (opt_str_truthy (inject_aid self a)) eqn:Haid;
    [ | rewrite (inject_without_anima self a q p Haid) in Hlog; discriminate Hlog ].
  pose proof (inject_with_anima self a q p Haid) as E. cbv zeta in E.
  set (rq' := mkRequest GET _ _ None) in E. clearbody rq'.
  rewrite E in Hlog |- *. cbn [fst snd] in Hlog. injection Hlog as Hrq.
  rewrite Hrq. split; [ | split ].
  - intros e He. rewrite He. reflexivity.
  - intros r Hr Hs. rewrite Hr. cbn [obind].
    destruct (handle_response_raises r Hs) as [e He].
    exists e. split; [ exact He | ]. rewrite He. reflexivity.
  - intros r Hr Hs Hj. rewrite Hr. cbn [obind].
    unfold _handle_response. rewrite Hs, Hj. reflexivity.
Qed.

(** X7: on a 2xx answer [inject] returns a pack only for a JSON object, and
    the content of the pack is the [content] object of that body (empty when
    the body has none); a body that is neither [null] nor an object (a list,
    a number, a string, a boolean) raises [TypeError]. *)
Theorem inject_decodes_the_body (self : Elephantasm) (a : option anima_arg)
    (q p : option string) (rq : Request) (r : Response) (v : value) :
  snd (run (inject self a q p)) = [rq] ->
  _client self rq = Return r ->
  is_success r = true ->
  json r = Some v ->
  (forall body, v = VDict body ->
      fst (run (inject self a q p))
      = (pack <- MemoryPack_new body ;; Return (Some pack))%outcome)
  /\ (forall pack,
      fst (run (inject self a q p)) = Return (Some pack) ->
      exists body,
        v = VDict body
        /\ MemoryPack_new body = Return pack
        /\ ((get "content" body = None /\ pack_content pack = [])
            \/ get "content" body = Some (VDict (pack_content pack))))
  /\ (v <> VNone -> (forall body, v <> VDict body) ->
      exists msg, fst (run (inject self a q p)) = Raise (TypeError msg)).
Proof.
  intros Hlog Hr Hs Hj.
  destruct (opt_str_truthy (inject_aid self a)) eqn:Haid;
    [ | rewrite (inject_without_anima self a q p Haid) in Hlog; discriminate Hlog ].
  pose proof (inject_with_anima self a q p Haid) as E. cbv zeta in E.
  set (rq' := mkRequest GET _ _ None) in E. clearbody rq'.
  rewrite E in Hlog |- *. cbn [fst snd] in Hlog |- *. injection Hlog as Hrq.
  rewrite Hrq, Hr. cbn [obind].
  assert (Hv : _handle_response r = Return v)
    by (unfold _handle_response; rewrite Hs, Hj; reflexivity).
  rewrite Hv. cbn [obind].
  split; [ | split ].
  - intros body ->. reflexivity.
  - intros pack H.
    destruct v as [ | b | z | f | s | l | body ]; try discriminate H.
    cbn [splat] in H.
    destruct (MemoryPack_new body) as [pack' | e] eqn:Hp; [ | discriminate H ].
    cbn [obind] in H. injection H as <-.
    exists body. split; [ reflexivity | ]. split; [ exact Hp | ].
    apply MemoryPack_new_content. exact Hp.
  - intros Hnone Hdict.
    destruct v as [ | b | z | f | s | l | body ]; try (eexists; reflexivity).
    + exfalso. apply Hnone. reflexivity.
    + exfalso. apply (Hdict body). reflexivity.
Qed.

End InjectMore.

(** ** extract, the rest *)

Section ExtractMore.
Context {R : Runtime}.
Import exceptions types client.

Lemma meta_or_empty_eq (meta : option dict) :
  meta_or_empty meta = match meta with Some d => d | None => [] end.
Proof.
  destruct meta as [[ | kv d] | ]; reflexivity.
Qed.

Lemma get_app (k : string) (d1 d2 : dict) :
  get k (d1 ++ d2)%list
  = match get k d1 with
    | Some v => Some v
    | None => get k d2
    end.
Proof.
  induction d1 as [ | [k' v] d1 IH ]; simpl.
  - reflexivity.
  - destruct (String.eqb k k'); [ reflexivity | exact IH ].
Qed.

Lemma get_entry {A : Type} (k k' : string) (ser : A -> value) (x : option A) :
  get k (entry k' ser x)
  = if String.eqb k k' then option_map ser x else None.
Proof.
  destruct x as [a | ]; simpl.
  - destruct (String.eqb k k'); reflexivity.
  - destruct (String.eqb k k'); reflexivity.
Qed.

(** The entries of the dump of an [EventCreate], key by key. *)
Lemma model_dump_lookup (data : EventCreate) :
  let dump := EventCreate_model_dump data in
  get "anima_id" dump = Some (VStr (str_of_UUID (anima_id data)))
  /\ get "event_type" dump = Some (VStr (event_type data))
  /\ get "content" dump = Some (VStr (content data))
  /\ get "role" dump = option_map VStr (role data)
  /\ get "author" dump = option_map VStr (author data)
  /\ get "summary" dump = option_map VStr (summary data)
  /\ get "occurred_at" dump
     = option_map (fun t => VStr (isoformat t)) (occurred_at data)
  /\ get "session_id" dump = option_map VStr (session_id data)
  /\ get "meta" dump = Some (VDict (dump_any (meta data)))
  /\ get "source_uri" dump = option_map VStr (source_uri data)
  /\ get "dedupe_key" dump = option_map VStr (dedupe_key data)
  /\ get "importance_score" dump = option_map VFloat (importance_score data).
Proof.
  destruct data as [u et c ro au su oc si me ur dk im].
  unfold EventCreate_model_dump.
  cbn [anima_id event_type content role author summary occurred_at session_id
       meta source_uri dedupe_key importance_score].
  repeat split; rewrite !get_app, !get_entry; cbn; try reflexivity;
    match goal with
    | |- context [option_map _ ?x] => destruct x; reflexivity
    end.
Qed.

(** A name that is not a field of [EventCreate] is not a key of the dump. *)
Lemma model_dump_other_keys (data : EventCreate) (k : string) :
  ~ In k EventCreate_fields -> get k (EventCreate_model_dump data) = None.
Proof.
  intros H. unfold EventCreate_fields in H. cbn [In] in H.
  assert (Hk : forall k', In k' EventCreate_fields -> String.eqb k k' = false).
  { intros k' Hin. apply String.eqb_neq. intros ->. apply H. exact Hin. }
  unfold EventCreate_model_dump.
  rewrite !get_app, !get_entry. cbn [get].
  rewrite !Hk by (unfold EventCreate_fields; cbn [In]; tauto).
  reflexivity.
Qed.

(** X8: the dump of an [EventCreate] has one entry per field that is not
    [None] and no other entry: its keys are the names of those fields, in
    the order of their declaration, each once, and no value is [None]; the
    identifier and the timestamp are in their text form, an empty string is
    an empty string. *)
Theorem model_dump_excludes_none_only (data : EventCreate) :
  let dump := EventCreate_model_dump data in
  NoDup (keys dump)
  /\ keys dump
     = filter (fun k => match get k dump with Some _ => true | None => false end)
         EventCreate_fields
  /\ (forall k, ~ In k EventCreate_fields -> get k dump = None)
  /\ (forall k v, In (k, v) dump -> v <> VNone)
  /\ get "anima_id" dump = Some (VStr (str_of_UUID (anima_id data)))
  /\ get "event_type" dump = Some (VStr (event_type data))
  /\ get "content" dump = Some (VStr (content data))
  /\ get "role" dump = option_map VStr (role data)
  /\ get "author" dump = option_map VStr (author data)
  /\ get "summary" dump = option_map VStr (summary data)
  /\ get "occurred_at" dump
     = option_map (fun t => VStr (isoformat t)) (occurred_at data)
  /\ get "session_id" dump = option_map VStr (session_id data)
  /\ get "meta" dump = Some (VDict (dump_any (meta data)))
  /\ get "source_uri" dump = option_map VStr (source_uri data)
  /\ get "dedupe_key" dump = option_map VStr (dedupe_key data)
  /\ get "importance_score" dump = option_map VFloat (importance_score data).
Proof.
  cbv zeta.
  split; [ | split; [ | split; [ | split; [ | exact (model_dump_lookup data) ] ] ] ].
  - destruct data as [u et c ro au su oc si me ur dk im].
    unfold EventCreate_model_dump, keys.
    cbn [anima_id event_type content role author summary occurred_at session_id
         meta source_uri dedupe_key importance_score].
    destruct ro, au, su, oc, si, ur, dk, im; cbn [entry app map fst];
      match goal with
      | |- NoDup ?l =>
          replace l with (nodup string_dec l) by (vm_compute; reflexivity);
          apply NoDup_nodup
      end.
  - destruct data as [u et c ro au su oc si me ur dk im].
    unfold EventCreate_model_dump, EventCreate_fields, keys.
    cbn [anima_id event_type content role author summary occurred_at session_id
         meta source_uri dedupe_key importance_score].
    destruct ro, au, su, oc, si, ur, dk, im; reflexivity.
  - intros k. apply model_dump_other_keys.
  - destruct data as [u et c ro au su oc si me ur dk im].
    unfold EventCreate_model_dump.
    cbn [anima_id event_type content role author summary occurred_at session_id
         meta source_uri dedupe_key importance_score].
    intros k v Hin.
    repeat (apply in_app_or in Hin; destruct Hin as [Hin | Hin]);
      repeat match type of Hin with
             | In _ (entry _ _ ?x) => destruct x; cbn [entry In] in Hin
             | In _ (_ :: _) => cbn [In] in Hin
             | _ \/ _ => destruct Hin as [Hin | Hin]
             | False => destruct Hin
             | (_, _) = (_, _) => injection Hin as _ <-; discriminate
             end.
Qed.

(** Either [extract] stops before the transport, or its three local checks
    have passed. *)
Lemma extract_cases (self : Elephantasm) (et : event_type_arg) (c : string)
    (a : option anima_arg) (sid role author : option string)
    (occ : option datetime) (meta : option dict) (score : option float) :
  (exists e, run (extract self et c a sid role author occ meta score) = (Raise e, []))
  \/ (exists u,
       anima_truthy (extract_aid self a) = true
       /\ UUID_of_str (unwrap (option_map str_of_anima (extract_aid self a))) = Some u
       /\ importance_score_ok score = true).
Proof.
  destruct (anima_truthy (extract_aid self a)) eqn:H.
  - destruct (UUID_of_str (unwrap (option_map str_of_anima (extract_aid self a))))
      as [u | ] eqn:Hu.
    + destruct (importance_score_ok score) eqn:Hs.
      * right. exists u. repeat split; assumption.
      * left. eexists.
        apply (extract_bad_score self et c a sid role author occ meta score u H Hu Hs).
    + left. eexists.
      apply (extract_bad_uuid self et c a sid role author occ meta score H Hu).
  - left. eexists.
    apply (extract_without_anima self et c a sid role author occ meta score H).
Qed.

(** X9: the body [extract] posts carries the arguments and nothing else:
    the anima id in the text form of the parsed UUID, the event type as
    spelled, the content, each of [session_id], [role], [author],
    [occurred_at] and [importance_score] exactly when it is not [None] (an
    empty string is sent as an empty string), the metadata (an empty
    dictionary when none is given), and no other key, so never [summary],
    [source_uri] or [dedupe_key]. *)
Theorem extract_body_carries_the_arguments (self : Elephantasm)
    (et : event_type_arg) (c : string) (a : option anima_arg)
    (sid role author : option string) (occ : option datetime)
    (meta : option dict) (score : option float) (u : UUID) :
  anima_truthy (extract_aid self a) = true ->
  UUID_of_str (unwrap (option_map str_of_anima (extract_aid self a))) = Some u ->
  importance_score_ok score = true ->
  exists body result,
    run (extract self et c a sid role author occ meta score)
    = (result, [mkRequest POST "/events" [] (Some (VDict body))])
    /\ get "anima_id" body = Some (VStr (str_of_UUID u))
    /\ get "event_type" body = Some (VStr (event_type_str_of et))
    /\ (forall k,
        ~ In k ["anima_id"; "event_type"; "content"; "role"; "author";
                "occurred_at"; "session_id"; "meta"; "importance_score"] ->
        get k body = None)
    /\ keys body
       = filter (fun k => match get k body with Some _ => true | None => false end)
           ["anima_id"; "event_type"; "content"; "role"; "author";
            "occurred_at"; "session_id"; "meta"; "importance_score"]
    /\ get "content" body = Some (VStr c)
    /\ get "session_id" body = option_map VStr sid
    /\ get "role" body = option_map VStr role
    /\ get "author" body = option_map VStr author
    /\ get "occurred_at" body = option_map (fun t => VStr (isoformat t)) occ
    /\ get "importance_score" body = option_map VFloat score
    /\ get "meta" body
       = Some (VDict (dump_any (match meta with Some d => d | None => [] end)))
    /\ get "summary" body = None
    /\ get "source_uri" body = None
    /\ get "dedupe_key" body = None.
Proof.
  intros H Hu Hs.
  pose proof (extract_sends self et c a sid role author occ meta score u H Hu Hs) as E.
  cbv zeta in E.
  set (data := mkEventCreate u (event_type_str_of et) c role author None occ sid
                 (meta_or_empty meta) None None score) in E.
  exists (EventCreate_model_dump data). eexists. split; [ exact E | ].
  pose proof (model_dump_lookup data) as D. cbv zeta in D.
  destruct D as (Da & De & Dc & Dr & Dau & Dsu & Do & Dsi & Dm & Dur & Ddk & Dim).
  assert (Hother : forall k,
    ~ In k ["anima_id"; "event_type"; "content"; "role"; "author";
            "occurred_at"; "session_id"; "meta"; "importance_score"] ->
    get k (EventCreate_model_dump data) = None).
  { intros k Hk.
    destruct (string_dec k "summary") as [-> | Hsu]; [ exact Dsu | ].
    destruct (string_dec k "source_uri") as [-> | Hur]; [ exact Dur | ].
    destruct (string_dec k "dedupe_key") as [-> | Hdk]; [ exact Ddk | ].
    apply model_dump_other_keys. unfold EventCreate_fields.
    cbn [In] in Hk |- *. intuition congruence. }
  assert (Hkeys : keys (EventCreate_model_dump data)
    = filter (fun k => match get k (EventCreate_model_dump data) with
                       | Some _ => true
                       | None => false
                       end)
        ["anima_id"; "event_type"; "content"; "role"; "author";
         "occurred_at"; "session_id"; "meta"; "importance_score"]).
  { unfold data, EventCreate_model_dump, keys.
    cbn [types.anima_id types.event_type types.content types.role types.author
         types.summary types.occurred_at types.session_id types.meta
         types.source_uri types.dedupe_key types.importance_score].
    destruct role, author, occ, sid, score; reflexivity. }
  split; [ exact Da | ]. split; [ exact De | ].
  split; [ exact Hother | ]. split; [ exact Hkeys | ].
  rewrite Dc, Dr, Dau, Dsu, Do, Dsi, Dm, Dur, Ddk, Dim.
  unfold data.
  cbn [types.anima_id types.content types.role types.author types.summary
       types.occurred_at types.session_id types.meta types.source_uri
       types.dedupe_key types.importance_score option_map].
  rewrite meta_or_empty_eq. repeat split.
Qed.

(** X10: [extract] parses the anima id as a UUID and [inject] does not: a
    non-empty anima id that is not a UUID makes [extract] raise [ValueError]
    before any request, and is put in the path by [inject] as it is. *)
Theorem extract_parses_the_anima_id (self : Elephantasm) (s : string) :
  str_truthy s = true ->
  UUID_of_str s = None ->
  (forall et c sid role author occ meta score,
      run (extract self et c (Some (AnimaStr s)) sid role author occ meta score)
      = (Raise (ValueError "badly formed hexadecimal UUID string"), []))
  /\ (forall q p,
      snd (run (inject self (Some (AnimaStr s)) q p))
      = [mkRequest GET ("/animas/" ++ s ++ "/memory-packs/latest")
           (inject_params q p) None]).
Proof.
  intros Hs Hu. split.
  - intros et c sid role author occ meta score.
    apply extract_bad_uuid; unfold extract_aid; cbn [anima_truthy]; rewrite Hs.
    + exact Hs.
    + exact Hu.
  - intros q p.
    assert (Ha : opt_str_truthy (inject_aid self (Some (AnimaStr s))) = true).
    { unfold inject_aid. cbn [anima_truthy]. rewrite Hs. exact Hs. }
    pose proof (inject_with_anima self (Some (AnimaStr s)) q p Ha) as E.
    cbv zeta in E. rewrite E. cbn [snd].
    unfold inject_aid. cbn [anima_truthy]. rewrite Hs. reflexivity.
Qed.

(** X11: the [Event] that [extract] returns is decoded from the body of the
    answer alone; on a 2xx answer whose body is not a JSON object, [null]
    included, [extract] raises [TypeError], where [inject] returns [None]
    for [null]. *)
Theorem extract_decodes_the_body (self : Elephantasm) (et : event_type_arg)
    (c : string) (a : option anima_arg) (sid role author : option string)
    (occ : option datetime) (meta : option dict) (score : option float)
    (rq : Request) (r : Response) (v : value) :
  snd (run (extract self et c a sid role author occ meta score)) = [rq] ->
  _client self rq = Return r ->
  is_success r = true ->
  json r = Some v ->
  (forall body, v = VDict body ->
      fst (run (extract self et c a sid role author occ meta score))
      = Event_new body)
  /\ ((forall body, v <> VDict body) ->
      exists msg,
        fst (run (extract self et c a sid role author occ meta score))
        = Raise (TypeError msg)).
Proof.
  intros Hlog Hr Hs Hj.
  destruct (extract_cases self et c a sid role author occ meta score)
    as [[e He] | [u [H [Hu Hsc]]]].
  { rewrite He in Hlog. discriminate Hlog. }
  pose proof (extract_sends self et c a sid role author occ meta score u H Hu Hsc) as E.
  cbv zeta in E.
  set (rq' := mkRequest POST _ _ _) in E. clearbody rq'.
  rewrite E in Hlog |- *. cbn [fst snd] in Hlog |- *. injection Hlog as Hrq.
  rewrite Hrq, Hr. cbn [obind].
  assert (Hv : _handle_response r = Return v)
    by (unfold _handle_response; rewrite Hs, Hj; reflexivity).
  rewrite Hv. cbn [obind]. split.
  - intros body ->. reflexivity.
  - intros Hdict.
    destruct v as [ | b | z | f | s | l | body ]; try (eexists; reflexivity).
    exfalso. apply (Hdict body). reflexivity.
Qed.

End ExtractMore.

(** ** create_anima *)

Section CreateAnimaProperties.
Context {R : Runtime}.
Import exceptions types client.

Variable dump_python : dict -> dict.

Lemma create_anima_long_name (self : Elephantasm) (name : string)
    (description : option string) (meta : option dict) :
  Nat.leb (char_count name) 255 = false ->
  run (create_anima dump_python self name description meta)
  = (Raise (PydanticValidationError "AnimaCreate"), []).
Proof.
  intros H. unfold run, create_anima, AnimaCreate_new. rewrite H. reflexivity.
Qed.

Lemma create_anima_sends (self : Elephantasm) (name : string)
    (description : option string) (meta : option dict) :
  Nat.leb (char_count name) 255 = true ->
  let rq := mkRequest POST "/animas" []
              (Some (VDict (AnimaCreate_model_dump dump_python
                              (mkAnimaCreate name description meta)))) in
  run (create_anima dump_python self name description meta)
  = ((response <- _client self rq ;;
      result <- _handle_response response ;;
      splat Anima_new result)%outcome,
     [rq]).
Proof.
  intros H rq. unfold run, create_anima, AnimaCreate_new. rewrite H.
  cbv beta iota delta [bind lift send app obind]. fold rq.
  destruct (_client self rq) as [response | e]; [ | reflexivity ].
  destruct (_handle_response response) as [result | e]; reflexivity.
Qed.

(** X12: [create_anima] checks the name before it sends: a name of more
    than 255 characters, however many bytes they take, raises the validation
    error of [AnimaCreate] and no request is made; otherwise exactly one
    POST goes to [/animas], whose body has the name, the description and the
    metadata exactly when they are not [None], and no other key. *)
Theorem create_anima_request (self : Elephantasm) (name : string)
    (description : option string) (meta : option dict) :
  ((255 < char_count name)%nat ->
   run (create_anima dump_python self name description meta)
   = (Raise (PydanticValidationError "AnimaCreate"), []))
  /\ ((char_count name <= 255)%nat ->
      exists result body,
        run (create_anima dump_python self name description meta)
        = (result, [mkRequest POST "/animas" [] (Some (VDict body))])
        /\ get "name" body = Some (VStr name)
        /\ get "description" body = option_map VStr description
        /\ get "meta" body = option_map (fun m => VDict (dump_python m)) meta
        /\ (forall k, k <> "name" -> k <> "description" -> k <> "meta" ->
            get k body = None)).
Proof.
  split.
  - intros H. apply create_anima_long_name. apply Nat.leb_gt. exact H.
  - intros H. apply Nat.leb_le in H.
    pose proof (create_anima_sends self name description meta H) as E.
    cbv zeta in E. eexists. eexists. split; [ exact E | ].
    unfold AnimaCreate_model_dump. cbn [create_name create_description create_meta].
    repeat split.
    + rewrite !get_app, !get_entry. cbn. destruct description; reflexivity.
    + rewrite !get_app, !get_entry. cbn. destruct meta; reflexivity.
    + intros k Hn Hd Hm. apply String.eqb_neq in Hn, Hd, Hm.
      rewrite !get_app, !get_entry. cbn [get]. rewrite Hn, Hd, Hm. reflexivity.
Qed.

(** X13: the three operations share one mapping of failures: whichever of
    [inject], [extract] and [create_anima] has sent its request to a server
    that answers everything with the same response outside 2xx, it raises
    the error [_handle_response] maps that response to. *)
Theorem operations_share_the_error_mapping (self : Elephantasm) (r : Response) :
  (forall rq, _client self rq = Return r) ->
  is_success r = false ->
  exists e,
    _handle_response r = Raise (ApiError e)
    /\ (forall a q p,
        snd (run (inject self a q p)) <> [] ->
        fst (run (inject self a q p)) = Raise (ApiError e))
    /\ (forall et c a sid role author occ meta score,
        snd (run (extract self et c a sid role author occ meta score)) <> [] ->
        fst (run (extract self et c a sid role author occ meta score))
        = Raise (ApiError e))
    /\ (forall name description meta,
        snd (run (create_anima dump_python self name description meta)) <> [] ->
        fst (run (create_anima dump_python self name description meta))
        = Raise (ApiError e)).
Proof.
  intros Hr Hs. destruct (handle_response_raises r Hs) as [e He].
  exists e. split; [ exact He | ]. split; [ | split ].
  - intros a q p Hlog.
    destruct (opt_str_truthy (inject_aid self a)) eqn:Haid.
    + pose proof (inject_with_anima self a q p Haid) as E. cbv zeta in E.
      rewrite E. cbn [fst]. rewrite Hr. cbn [obind]. rewrite He. reflexivity.
    + rewrite (inject_without_anima self a q p Haid) in Hlog.
      exfalso. apply Hlog. reflexivity.
  - intros et c a sid role author occ meta score Hlog.
    destruct (extract_cases self et c a sid role author occ meta score)
      as [[x Hx] | [u [H [Hu Hsc]]]].
    + rewrite Hx in Hlog. exfalso. apply Hlog. reflexivity.
    + pose proof (extract_sends self et c a sid role author occ meta score u H Hu Hsc) as E.
      cbv zeta in E. rewrite E. cbn [fst]. rewrite Hr. cbn [obind].
      rewrite He. reflexivity.
  - intros name description meta Hlog.
    destruct (Nat.leb (char_count name) 255) eqn:Hn.
    + pose proof (create_anima_sends self name description meta Hn) as E.
      cbv zeta in E. rewrite E. cbn [fst]. rewrite Hr. cbn [obind].
      rewrite He. reflexivity.
    + rewrite (create_anima_long_name self name description meta Hn) in Hlog.
      exfalso. apply Hlog. reflexivity.
Qed.

(** X14: the [Anima] that [create_anima] returns is decoded from the body
    of the answer alone: its name is the [name] of that body, not the
    argument; a 2xx body that is not a JSON object raises [TypeError]. *)
Theorem create_anima_decodes_the_body (self : Elephantasm) (name : string)
    (description : option string) (meta : option dict)
    (rq : Request) (r : Response) (v : value) :
  snd (run (create_anima dump_python self name description meta)) = [rq] ->
  _client self rq = Return r ->
  is_success r = true ->
  json r = Some v ->
  (forall body, v = VDict body ->
      fst (run (create_anima dump_python self name description meta))
      = Anima_new body)
  /\ (forall anima,
      fst (run (create_anima dump_python self name description meta))
      = Return anima ->
      exists body, v = VDict body /\ get "name" body = Some (VStr (anima_name anima)))
  /\ ((forall body, v <> VDict body) ->
      exists msg,
        fst (run (create_anima dump_python self name description meta))
        = Raise (TypeError msg)).
Proof.
  intros Hlog Hr Hs Hj.
  destruct (Nat.leb (char_count name) 255) eqn:Hn;
    [ | rewrite (create_anima_long_name self name description meta Hn) in Hlog;
        discriminate Hlog ].
  pose proof (create_anima_sends self name description meta Hn) as E.
  cbv zeta in E.
  set (rq' := mkRequest POST _ _ _) in E. clearbody rq'.
  rewrite E in Hlog |- *. cbn [fst snd] in Hlog |- *. injection Hlog as Hrq.
  rewrite Hrq, Hr. cbn [obind].
  assert (Hv : _handle_response r = Return v)
    by (unfold _handle_response; rewrite Hs, Hj; reflexivity).
  rewrite Hv. cbn [obind]. split; [ | split ].
  - intros body ->. reflexivity.
  - intros anima H.
    destruct v as [ | b | z | f | s | l | body ]; try discriminate H.
    cbn [splat] in H. exists body. split; [ reflexivity | ].
    unfold Anima_new in H. invert_binds H. injection H as <-.
    cbn [anima_name].
    match goal with
    | E : required _ as_str "name" body = Return _ |- _ =>
        destruct (required_inv _ _ _ _ _ E) as [w [Hg Hw]]
    end.
    apply as_str_inv in Hw. rewrite Hg, Hw. reflexivity.
  - intros Hdict.
    destruct v as [ | b | z | f | s | l | body ]; try (eexists; reflexivity).
    exfalso. apply (Hdict body). reflexivity.
Qed.

End CreateAnimaProperties.

(** ** The accessors of MemoryPack, the rest *)

Section AccessorsMore.
Context {R : Runtime}.
Import types.

(** What a list accessor does on its section [v]: it returns only for a
    list of objects that each validate, for an empty dictionary and for an
    empty string. *)
Lemma section_cases {A : Type} (f : dict -> outcome A) (v : value) (ms : list A) :
  (its <- iterate v ;; comprehension (splat f) its)%outcome = Return ms ->
  (exists items,
      v = VList items
      /\ Forall2 (fun item m => exists kw, item = VDict kw /\ f kw = Return m)
           items ms)
  \/ (v = VDict [] /\ ms = [])
  \/ (v = VStr "" /\ ms = []).
Proof.
  destruct v as [ | b | z | x | s | items | d ]; cbn [iterate obind];
    try discriminate.
  - destruct s as [ | c s ]; cbn.
    + intros H. injection H as <-. right. right. split; reflexivity.
    + discriminate.
  - intros H. left. exists items. split; [ reflexivity | ].
    apply comprehension_Forall2 in H.
    eapply Forall2_impl; [ | exact H ].
    intros item m Hm. apply splat_inv. exact Hm.
  - destruct d as [ | [k w] d ]; cbn.
    + intros H. injection H as <-. right. left. split; reflexivity.
    + discriminate.
Qed.

(** X15: [session_memories], [knowledge] and [long_term_memories] tolerate
    a missing section, not a malformed one: when the key is there, the
    accessor returns only for a list of objects that each validate, for an
    empty dictionary and for an empty string; a section that is [null]
    raises [TypeError]; when the key is not there, whatever else [content]
    holds, the accessor returns the empty list. *)
Theorem list_accessors_need_a_list (p : MemoryPack) :
  (forall v ms,
      get "session_memories" (pack_content p) = Some v ->
      session_memories p = Return ms ->
      (exists items,
          v = VList items
          /\ Forall2 (fun item m =>
               exists kw, item = VDict kw /\ ScoredMemory_new kw = Return m)
               items ms)
      \/ (v = VDict [] /\ ms = []) \/ (v = VStr "" /\ ms = []))
  /\ (forall v ks,
      get "knowledge" (pack_content p) = Some v ->
      knowledge p = Return ks ->
      (exists items,
          v = VList items
          /\ Forall2 (fun item k =>
               exists kw, item = VDict kw /\ ScoredKnowledge_new kw = Return k)
               items ks)
      \/ (v = VDict [] /\ ks = []) \/ (v = VStr "" /\ ks = []))
  /\ (forall v ms,
      get "long_term_memories" (pack_content p) = Some v ->
      long_term_memories p = Return ms ->
      (exists items,
          v = VList items
          /\ Forall2 (fun item m =>
               exists kw, item = VDict kw /\ ScoredMemory_new kw = Return m)
               items ms)
      \/ (v = VDict [] /\ ms = []) \/ (v = VStr "" /\ ms = []))
  /\ (get "session_memories" (pack_content p) = Some VNone ->
      exists msg, session_memories p = Raise (TypeError msg))
  /\ (get "knowledge" (pack_content p) = Some VNone ->
      exists msg, knowledge p = Raise (TypeError msg))
  /\ (get "long_term_memories" (pack_content p) = Some VNone ->
      exists msg, long_term_memories p = Raise (TypeError msg))
  /\ (get "session_memories" (pack_content p) = None ->
      session_memories p = Return [])
  /\ (get "knowledge" (pack_content p) = None ->
      knowledge p = Return [])
  /\ (get "long_term_memories" (pack_content p) = None ->
      long_term_memories p = Return []).
Proof.
  split; [ | split; [ | split; [ | split; [ | split;
    [ | split; [ | split; [ | split ] ] ] ] ] ] ].
  - intros v ms Hg H. unfold session_memories, get_default in H. rewrite Hg in H.
    destruct (pack_content p); [ discriminate Hg | ].
    apply section_cases. exact H.
  - intros v ms Hg H. unfold knowledge, get_default in H. rewrite Hg in H.
    destruct (pack_content p); [ discriminate Hg | ].
    apply section_cases. exact H.
  - intros v ms Hg H. unfold long_term_memories, get_default in H. rewrite Hg in H.
    destruct (pack_content p); [ discriminate Hg | ].
    apply section_cases. exact H.
  - intros Hg. unfold session_memories, get_default. rewrite Hg.
    destruct (pack_content p); [ discriminate Hg | eexists; reflexivity ].
  - intros Hg. unfold knowledge, get_default. rewrite Hg.
    destruct (pack_content p); [ discriminate Hg | eexists; reflexivity ].
  - intros Hg. unfold long_term_memories, get_default. rewrite Hg.
    destruct (pack_content p); [ discriminate Hg | eexists; reflexivity ].
  - intros Hg. unfold session_memories, get_default. rewrite Hg.
    destruct (pack_content p); reflexivity.
  - intros Hg. unfold knowledge, get_default. rewrite Hg.
    destruct (pack_content p); reflexivity.
  - intros Hg. unfold long_term_memories, get_default. rewrite Hg.
    destruct (pack_content p); reflexivity.
Qed.

(** The keys a [ScoredKnowledge] needs, and where its fields come from. *)
Lemma ScoredKnowledge_fields (kw : dict) (k : ScoredKnowledge) :
  ScoredKnowledge_new kw = Return k ->
  get "content" kw = Some (VStr (knowledge_content k))
  /\ get "type" kw = Some (VStr (knowledge_type k))
  /\ (exists v, get "score" kw = Some v /\ as_float v = Some (knowledge_score k))
  /\ (exists v, get "id" kw = Some v /\ as_uuid v = Some (knowledge_id k)).
Proof.
  unfold ScoredKnowledge_new. intros H. invert_binds H. injection H as <-.
  cbn [knowledge_content knowledge_type knowledge_score knowledge_id].
  repeat match goal with
         | E : required _ _ _ kw = Return _ |- _ =>
             let v := fresh "v" in
             let Hg := fresh "Hg" in
             let Hv := fresh "Hv" in
             destruct (required_inv _ _ _ _ _ E) as [v [Hg Hv]]; clear E
         end.
  repeat match goal with
         | Hv : as_str _ = Some _ |- _ => apply as_str_inv in Hv; subst
         end.
  repeat split; try assumption; eexists; split; eassumption.
Qed.

(** X16: on a list, [knowledge] returns exactly when every element is an
    object that validates as a [ScoredKnowledge], and then one item per
    element, in order; each item has the [content] and [type] strings of its
    element and the validated [score], so an element without [id],
    [content], [type] or [score] makes the accessor raise. *)
Theorem knowledge_is_elementwise (p : MemoryPack) (items : list value) :
  get "knowledge" (pack_content p) = Some (VList items) ->
  (forall ks,
      knowledge p = Return ks
      <-> Forall2 (fun item k =>
            exists kw, item = VDict kw /\ ScoredKnowledge_new kw = Return k)
            items ks)
  /\ (forall ks,
      knowledge p = Return ks ->
      List.length ks = List.length items
      /\ Forall2 (fun item k =>
           exists kw,
             item = VDict kw
             /\ get "content" kw = Some (VStr (knowledge_content k))
             /\ get "type" kw = Some (VStr (knowledge_type k))
             /\ (exists v, get "score" kw = Some v
                           /\ as_float v = Some (knowledge_score k))
             /\ get "id" kw <> None)
           items ks).
Proof.
  intros Hg.
  assert (Hk : knowledge p = comprehension (splat ScoredKnowledge_new) items).
  { unfold knowledge, get_default. rewrite Hg.
    destruct (pack_content p); [ discriminate Hg | reflexivity ]. }
  assert (Hiff : forall ks,
    knowledge p = Return ks
    <-> Forall2 (fun item k =>
          exists kw, item = VDict kw /\ ScoredKnowledge_new kw = Return k)
          items ks).
  { intros ks. rewrite Hk. split.
    - intros H. apply comprehension_Forall2 in H.
      eapply Forall2_impl; [ | exact H ].
      intros item k Hitem. apply splat_inv. exact Hitem.
    - intros H. apply Forall2_comprehension.
      eapply Forall2_impl; [ | exact H ].
      intros item k [kw [-> Hkw]]. exact Hkw. }
  split; [ exact Hiff | ].
  intros ks H. apply Hiff in H. split.
  - symmetry. apply (Forall2_length H).
  - eapply Forall2_impl; [ | exact H ].
    intros item k [kw [-> Hkw]]. exists kw.
    destruct (ScoredKnowledge_fields kw k Hkw) as (Hc & Ht & Hs & [v [Hid _]]).
    repeat split; try assumption. rewrite Hid. discriminate.
Qed.

(** X17: [identity] and [temporal_context] return [None] exactly when the
    content is empty or the section is missing or falsy ([null], an empty
    object, an empty string, zero, [false]); a section that is true and not
    an object raises [TypeError], so neither accessor answers [None] for
    it. *)
Theorem optional_sections_are_none_iff_falsy (p : MemoryPack) :
  (identity p = Return None
   <-> pack_content p = []
       \/ truthy (get_default "identity" VNone (pack_content p)) = false)
  /\ (temporal_context p = Return None
      <-> pack_content p = []
          \/ truthy (get_default "temporal_context" VNone (pack_content p)) = false)
  /\ (forall v,
      get "identity" (pack_content p) = Some v -> truthy v = true ->
      (forall kw, v <> VDict kw) ->
      exists msg, identity p = Raise (TypeError msg))
  /\ (forall v,
      get "temporal_context" (pack_content p) = Some v -> truthy v = true ->
      (forall kw, v <> VDict kw) ->
      exists msg, temporal_context p = Raise (TypeError msg)).
Proof.
  split; [ | split; [ | split ] ].
  - unfold identity. destruct (pack_content p) as [ | kv content ] eqn:Hc.
    + split; [ intros _; left; reflexivity | reflexivity ].
    + cbn [truthy negb].
      destruct (truthy (get_default "identity" VNone (kv :: content))) eqn:Ht.
      * split.
        -- intros H.
           destruct (splat IdentityContext_new
                       (get_default "identity" VNone (kv :: content)));
             discriminate H.
        -- intros [H | H]; discriminate H.
      * split; [ intros _; right; reflexivity | reflexivity ].
  - unfold temporal_context. destruct (pack_content p) as [ | kv content ] eqn:Hc.
    + split; [ intros _; left; reflexivity | reflexivity ].
    + cbn [truthy negb].
      destruct (truthy (get_default "temporal_context" VNone (kv :: content))) eqn:Ht.
      * split.
        -- intros H.
           destruct (splat TemporalContext_new
                       (get_default "temporal_context" VNone (kv :: content)));
             discriminate H.
        -- intros [H | H]; discriminate H.
      * split; [ intros _; right; reflexivity | reflexivity ].
  - intros v Hg Ht Hd. unfold identity, get_default. rewrite Hg.
    destruct (pack_content p); [ discriminate Hg | ].
    cbn [truthy negb]. rewrite Ht.
    destruct v as [ | | | | | | kw ]; try (eexists; reflexivity).
    exfalso. apply (Hd kw). reflexivity.
  - intros v Hg Ht Hd. unfold temporal_context, get_default. rewrite Hg.
    destruct (pack_content p); [ discriminate Hg | ].
    cbn [truthy negb]. rewrite Ht.
    destruct v as [ | | | | | | kw ]; try (eexists; reflexivity).
    exfalso. apply (Hd kw). reflexivity.
Qed.

End AccessorsMore.

(** ** Decoding and encoding *)

Section Codec.
Context {R : Runtime}.
Import types.

(** X18: a pack decoded from keyword arguments without [content], or with
    an empty one, is empty in every accessor, whatever its counters say:
    [as_prompt] is the empty string, [identity] and [temporal_context] are
    [None] and the three lists are empty.  Otherwise [as_prompt] is the
    object stored under [context], of whatever type. *)
Theorem pack_without_content_is_empty (kw : dict) (pack : MemoryPack) :
  MemoryPack_new kw = Return pack ->
  (get "content" kw = None \/ get "content" kw = Some (VDict []) ->
   as_prompt pack = VStr ""
   /\ identity pack = Return None
   /\ temporal_context pack = Return None
   /\ session_memories pack = Return []
   /\ knowledge pack = Return []
   /\ long_term_memories pack = Return [])
  /\ (forall content v,
      get "content" kw = Some (VDict content) ->
      get "context" content = Some v ->
      as_prompt pack = v)
  /\ (forall content,
      get "content" kw = Some (VDict content) ->
      content <> [] ->
      get "context" content = None ->
      as_prompt pack = VStr "").
Proof.
  intros H. pose proof (MemoryPack_new_content kw pack H) as Hc.
  split; [ | split ].
  - intros Hkw.
    assert (He : pack_content pack = []).
    { destruct Hc as [[_ Hc] | Hc]; [ exact Hc | ].
      destruct Hkw as [Hkw | Hkw]; rewrite Hkw in Hc; [ discriminate Hc | ].
      injection Hc as Hc. symmetry. exact Hc. }
    unfold as_prompt, identity, temporal_context, session_memories, knowledge,
      long_term_memories.
    rewrite He. repeat split.
  - intros content v Hkw Hv.
    destruct Hc as [[Hc _] | Hc]; rewrite Hkw in Hc; [ discriminate Hc | ].
    injection Hc as Hc. unfold as_prompt, get_default. rewrite <- Hc, Hv.
    destruct content; [ discriminate Hv | reflexivity ].
  - intros content Hkw Hne Hv.
    destruct Hc as [[Hc _] | Hc]; rewrite Hkw in Hc; [ discriminate Hc | ].
    injection Hc as Hc. unfold as_prompt, get_default. rewrite <- Hc, Hv.
    destruct content; reflexivity.
Qed.

(** X19: round trip between the two event models: when the text forms of
    its identifiers and timestamps validate back to them, the dump of an
    [EventCreate], completed with an [id] and the two timestamps of the
    server, validates as the [Event] with the same anima id, type, content,
    role, author, summary, time, session, source, key and score, and the
    dumped metadata. *)
Theorem dumped_event_validates_as_event (data : EventCreate) (id : UUID)
    (created updated : datetime) :
  (forall u, u = id \/ u = anima_id data ->
             lax_uuid (VStr (str_of_UUID u)) = Some u) ->
  (forall t, t = created \/ t = updated \/ occurred_at data = Some t ->
             lax_datetime (VStr (isoformat t)) = Some t) ->
  Event_new
    ((("id", VStr (str_of_UUID id)) :: EventCreate_model_dump data)
     ++ [("created_at", VStr (isoformat created));
         ("updated_at", VStr (isoformat updated))])%list
  = Return (mkEvent id (anima_id data) (event_type data) (role data)
              (author data) (summary data) (content data) (occurred_at data)
              (session_id data) (dump_any (meta data)) (source_uri data)
              (dedupe_key data) (importance_score data) created updated).
Proof.
  intros Huuid Htime.
  pose proof (model_dump_lookup data) as D. cbv zeta in D.
  destruct D as (Da & De & Dc & Dr & Dau & Dsu & Do & Dsi & Dm & Dur & Ddk & Dim).
  set (dump := EventCreate_model_dump data) in *.
  assert (Hid : get "id" dump = None
                /\ get "created_at" dump = None
                /\ get "updated_at" dump = None).
  { unfold dump, EventCreate_model_dump.
    repeat split; rewrite !get_app, !get_entry; reflexivity. }
  destruct Hid as (Hid & Hcr & Hup).
  unfold Event_new, required, defaulted.
  rewrite !get_app. cbn [get String.eqb Ascii.eqb Bool.eqb].
  rewrite Da, De, Dc, Dr, Dau, Dsu, Do, Dsi, Dm, Dur, Ddk, Dim, Hcr, Hup.
  unfold as_uuid, as_datetime. cbn [get String.eqb Ascii.eqb Bool.eqb].
  rewrite (Huuid id (or_introl eq_refl)).
  rewrite (Huuid (anima_id data) (or_intror eq_refl)).
  rewrite (Htime created (or_introl eq_refl)).
  rewrite (Htime updated (or_intror (or_introl eq_refl))).
  destruct data as [u et c ro au su oc si me ur dk im].
  cbn [anima_id event_type content role author summary occurred_at session_id
       meta source_uri dedupe_key importance_score] in *.
  destruct ro, au, su, oc, si, ur, dk, im;
    cbn [option_map nullable as_str as_float as_dict obind];
    unfold as_datetime;
    rewrite ?(Htime _ (or_intror (or_intror eq_refl)));
    reflexivity.
Qed.

End Codec.

(** ** The module-level functions *)

Section FunctionsProperties.
Context {R : Runtime}.
Import types client.

Variable settings : ElephantasmSettings.
Variable httpx_Client : string -> list (string * string) -> Z -> outcome Transport.
Variable dump_python : dict -> dict.

(** X20: the default client is built at most once: a call that finds the
    global set returns it and leaves it, whatever the settings are by then;
    a call that finds it unset builds the client from the settings alone and
    stores it, and stores nothing when the construction fails. *)
Theorem default_client_is_built_once (g : functions.global) :
  (forall c, g = Some c ->
      forall settings' httpx_Client',
        functions._get_client settings' httpx_Client' g = (Return c, Some c))
  /\ (forall c,
      fst (functions._get_client settings httpx_Client g) = Return c ->
      snd (functions._get_client settings httpx_Client g) = Some c
      /\ functions._get_client settings httpx_Client
           (snd (functions._get_client settings httpx_Client g))
         = (Return c, Some c)
      /\ (g = Some c
          \/ (g = None
              /\ __init__ settings httpx_Client None None None None = Return c)))
  /\ (forall e,
      fst (functions._get_client settings httpx_Client g) = Raise e ->
      g = None /\ snd (functions._get_client settings httpx_Client g) = None).
Proof.
  split; [ | split ].
  - intros c -> settings' httpx'. reflexivity.
  - intros c H. unfold functions._get_client in *.
    destruct g as [c' | ].
    + cbn [fst] in H. injection H as ->. repeat split. left. reflexivity.
    + destruct (__init__ settings httpx_Client None None None None) as [c' | e] eqn:Hi;
        cbn [fst] in H; [ | discriminate H ].
      injection H as ->. repeat split. right. split; reflexivity.
  - intros e H. unfold functions._get_client in *.
    destruct g as [c' | ]; [ discriminate H | ].
    destruct (__init__ settings httpx_Client None None None None) as [c' | e'];
      [ discriminate H | ].
    split; reflexivity.
Qed.

(** X21: without an API key in the settings, the first call of any
    module-level function raises the configuration error of the
    constructor, makes no request and leaves the global unset. *)
Theorem functions_need_an_api_key :
  opt_str_truthy (settings_api_key settings) = false ->
  let missing :=
    ValueError
      "API key required. Provide api_key parameter or set ELEPHANTASM_API_KEY." in
  (forall a q p,
      functions.inject settings httpx_Client a q p None
      = ((Raise missing, []), None))
  /\ (forall et c a sid role author occ meta score,
      functions.extract settings httpx_Client et c a sid role author occ meta
        score None
      = ((Raise missing, []), None))
  /\ (forall name description meta,
      functions.create_anima settings httpx_Client dump_python name description
        meta None
      = ((Raise missing, []), None)).
Proof.
  intros H missing.
  assert (Hg : functions._get_client settings httpx_Client None
               = (Raise missing, None)).
  { unfold functions._get_client, __init__, or_str. cbn [opt_str_truthy].
    rewrite H. reflexivity. }
  repeat split; intros;
    unfold functions.inject, functions.extract, functions.create_anima,
      functions.on_default_client; rewrite Hg; reflexivity.
Qed.

(** X22: with an API key in the settings, the first call of a module-level
    function is the method of the client built from the settings, which it
    stores: the anima id of that client is the one of the settings, so
    [inject] and [extract] without an [anima_id] use it, and raise the
    configuration error, after storing the client and without a request,
    when the settings have none. *)
Theorem functions_use_the_settings (c : Elephantasm) :
  __init__ settings httpx_Client None None None None = Return c ->
  self_anima_id c = settings_anima_id settings
  /\ (forall a q p,
      functions.inject settings httpx_Client a q p None
      = (run (inject c a q p), Some c))
  /\ (forall et s a sid role author occ meta score,
      functions.extract settings httpx_Client et s a sid role author occ meta
        score None
      = (run (extract c et s a sid role author occ meta score), Some c))
  /\ (forall name description meta,
      functions.create_anima settings httpx_Client dump_python name description
        meta None
      = (run (create_anima dump_python c name description meta), Some c))
  /\ (opt_str_truthy (settings_anima_id settings) = false ->
      forall a, anima_truthy a = false ->
        (forall q p,
            functions.inject settings httpx_Client a q p None
            = ((Raise anima_id_required, []), Some c))
        /\ (forall et s sid role author occ meta score,
            functions.extract settings httpx_Client et s a sid role author occ
              meta score None
            = ((Raise anima_id_required, []), Some c))).
Proof.
  intros Hi.
  assert (Hg : functions._get_client settings httpx_Client None = (Return c, Some c)).
  { unfold functions._get_client. rewrite Hi. reflexivity. }
  assert (Ha : self_anima_id c = settings_anima_id settings).
  { unfold __init__ in Hi.
    destruct (negb (opt_str_truthy (or_str None (settings_api_key settings))));
      [ discriminate Hi | ].
    destruct (httpx_Client _ _ _) as [transport | e]; [ | discriminate Hi ].
    cbn [obind] in Hi. injection Hi as <-. reflexivity. }
  split; [ exact Ha | ].
  split; [ intros; unfold functions.inject, functions.on_default_client;
           rewrite Hg; reflexivity | ].
  split; [ intros; unfold functions.extract, functions.on_default_client;
           rewrite Hg; reflexivity | ].
  split; [ intros; unfold functions.create_anima, functions.on_default_client;
           rewrite Hg; reflexivity | ].
  intros Hs a Hfalsy.
  assert (Hself : opt_str_truthy (self_anima_id c) = false)
    by (rewrite Ha; exact Hs).
  split.
  - intros q p. unfold functions.inject, functions.on_default_client. rewrite Hg.
    rewrite (inject_without_anima c a q p); [ reflexivity | ].
    unfold inject_aid. rewrite Hfalsy. exact Hself.
  - intros et s sid role author occ meta score.
    unfold functions.extract, functions.on_default_client. rewrite Hg.
    rewrite (extract_without_anima c et s a sid role author occ meta score);
      [ reflexivity | ].
    unfold extract_aid. rewrite Hfalsy.
    destruct (self_anima_id c) as [x | ]; [ exact Hself | reflexivity ].
Qed.

End FunctionsProperties.

(** ** Events as the server sends them *)

Section EventDecoding.
Context {R : Runtime}.
Import types.


End EventDecoding.

(** ** The further properties on the fixtures *)

Module on_more_fixtures.

Import exceptions types client.

(** A 429 with a [detail]. *)
Lemma error_class_identifies_status_witness :
  exceptions.status_code (RateLimitError (Some (VStr "Rate limit exceeded")))
  = Some 429.
Proof.
  pose proof (error_class_identifies_status (R := test_runtime)
    (mkResponse 429 "" (Some (VDict [("detail", VStr "Rate limit exceeded")])))
    (RateLimitError (Some (VStr "Rate limit exceeded"))) eq_refl) as H.
  destruct H as (_ & _ & _ & _ & _ & _ & _ & H). exact H.
Defined.

(** An endpoint given with three trailing slashes. *)
Lemma init_strips_trailing_slashes_witness :
  exists n,
    "https://test.api.elephantasm.com///"
    = "https://test.api.elephantasm.com" ++ slashes n.
Proof.
  exact (proj1 (proj2 (init_strips_trailing_slashes fixtures.settings
    (fixtures.httpx_Client fixtures.created)
    (Some "sk_test_abc123def456") None
    (Some "https://test.api.elephantasm.com///") None
    (fixtures.client_without_anima fixtures.created) eq_refl))).
Defined.

(** [test_init_with_api_key], and the same call when [httpx.Client]
    refuses the header. *)
Lemma init_needs_an_api_key_witness :
  (exists c,
      __init__ fixtures.settings (fixtures.httpx_Client fixtures.created)
        (Some "sk_test_abc123def456") None None None = Return c)
  /\ __init__ fixtures.settings fixtures.httpx_refuses
       (Some "sk_test_abc123def456") None None None
     = Raise (TransportError "invalid header value").
Proof.
  split.
  - pose proof (init_needs_an_api_key fixtures.settings
      (fixtures.httpx_Client fixtures.created)
      (Some "sk_test_abc123def456") None None None) as H.
    cbv zeta in H. destruct H as (_ & _ & H & _).
    apply (proj2 H). split.
    + left. reflexivity.
    + exists fixtures.created. reflexivity.
  - pose proof (init_needs_an_api_key fixtures.settings fixtures.httpx_refuses
      (Some "sk_test_abc123def456") None None None) as H.
    cbv zeta in H. destruct H as (_ & _ & _ & H & _).
    apply H.
    + left. reflexivity.
    + reflexivity.
Defined.

(** [test_inject_with_query]. *)
Lemma inject_request_shape_witness :
  get_param "query" (inject_params (Some "user preferences") None)
  = Some "user preferences".
Proof.
  pose proof (inject_request_shape (R := test_runtime)
    (fixtures.client fixtures.no_packs) None (Some "user preferences") None) as H.
  destruct H as (_ & _ & _ & H & _). exact H.
Defined.

(** [inject] on a network that cannot be reached. *)
Lemma inject_propagates_failures_witness :
  run (inject (R := test_runtime) (fixtures.client fixtures.unreachable)
         None None None)
  = (Raise (TransportError "connection refused"),
     [mkRequest GET
        "/animas/123e4567-e89b-12d3-a456-426614174000/memory-packs/latest"
        [] None]).
Proof.
  exact (proj1 (inject_propagates_failures (R := test_runtime)
    (fixtures.client fixtures.unreachable) None None None
    (mkRequest GET
       "/animas/123e4567-e89b-12d3-a456-426614174000/memory-packs/latest"
       [] None) eq_refl)
    (TransportError "connection refused") eq_refl).
Defined.

(** [inject] on a server that answers with a JSON list. *)
Lemma inject_decodes_the_body_witness :
  exists msg,
    fst (run (inject (R := test_runtime) (fixtures.client fixtures.empty_list)
                None None None))
    = Raise (TypeError msg).
Proof.
  refine (proj2 (proj2 (inject_decodes_the_body (R := test_runtime)
    (fixtures.client fixtures.empty_list) None None None
    (mkRequest GET
       "/animas/123e4567-e89b-12d3-a456-426614174000/memory-packs/latest"
       [] None)
    (mkResponse 200 "[]" (Some (VList []))) (VList [])
    eq_refl eq_refl eq_refl eq_refl)) _ _).
  - discriminate.
  - intros body. discriminate.
Defined.

(** [extract] with an empty role. *)
Lemma extract_body_carries_the_arguments_witness :
  exists body result,
    run (extract (R := test_runtime) (fixtures.client fixtures.created)
           (OfEnum MESSAGE_IN) "Hello!" None (Some "session-123") (Some "")
           None None None None)
    = (result, [mkRequest POST "/events" [] (Some (VDict body))])
    /\ get "event_type" body = Some (VStr "message.in")
    /\ get "role" body = Some (VStr "")
    /\ get "session_id" body = Some (VStr "session-123")
    /\ get "author" body = None
    /\ get "debug" body = None.
Proof.
  destruct (extract_body_carries_the_arguments (R := test_runtime)
    (fixtures.client fixtures.created) (OfEnum MESSAGE_IN) "Hello!" None
    (Some "session-123") (Some "") None None None None fixtures.anima_id
    eq_refl eq_refl eq_refl)
    as (body & result & Hrun & _ & Het & Hother & _ & _ & Hsid & Hrole & Hauthor & _).
  exists body, result. repeat split; try assumption.
  apply Hother. cbn [In]. intuition discriminate.
Defined.

(** An anima id that is not a UUID. *)
Lemma extract_parses_the_anima_id_witness :
  run (extract (R := test_runtime) (fixtures.client fixtures.created)
         (OfEnum MESSAGE_IN) "Hello!" (Some (AnimaStr "my-agent"))
         None None None None None None)
  = (Raise (ValueError "badly formed hexadecimal UUID string"), []).
Proof.
  exact (proj1 (extract_parses_the_anima_id (R := test_runtime)
    (fixtures.client fixtures.created) "my-agent" eq_refl eq_refl)
    (OfEnum MESSAGE_IN) "Hello!" None None None None None None).
Defined.

(** [extract] on a server that answers 200 with [null]. *)
Lemma extract_decodes_the_body_witness :
  exists msg,
    fst (run (extract (R := test_runtime) (fixtures.client fixtures.no_packs)
                (OfEnum MESSAGE_IN) "Hello!" None None None None None None None))
    = Raise (TypeError msg).
Proof.
  refine (proj2 (extract_decodes_the_body (R := test_runtime)
    (fixtures.client fixtures.no_packs) (OfEnum MESSAGE_IN) "Hello!" None None
    None None None None None
    (mkRequest POST "/events" []
       (Some (VDict [("anima_id", VStr fixtures.anima_id);
                     ("event_type", VStr "message.in");
                     ("content", VStr "Hello!");
                     ("meta", VDict [])])))
    (mkResponse 200 "null" (Some VNone)) VNone
    eq_refl eq_refl eq_refl eq_refl) _).
  intros body. discriminate.
Defined.

(** The name of 100 characters of three bytes each is 300 bytes long and
    counts as 100. *)
Example kanji_name_has_100_characters :
  String.length fixtures.kanji_name = 300%nat
  /\ char_count fixtures.kanji_name = 100%nat.
Proof. split; vm_compute; reflexivity. Qed.

(** A name of 256 characters is refused; the name of 100 characters of
    three bytes each is posted. *)
Lemma create_anima_request_witness :
  run (create_anima (R := test_runtime) fixtures.dump_python
         (fixtures.client fixtures.anima_created) (slashes 256) None None)
  = (Raise (PydanticValidationError "AnimaCreate"), [])
  /\ exists result body,
      run (create_anima (R := test_runtime) fixtures.dump_python
             (fixtures.client fixtures.anima_created) fixtures.kanji_name None None)
      = (result, [mkRequest POST "/animas" [] (Some (VDict body))])
      /\ get "name" body = Some (VStr fixtures.kanji_name).
Proof.
  split.
  - refine (proj1 (create_anima_request (R := test_runtime) fixtures.dump_python
      (fixtures.client fixtures.anima_created) (slashes 256) None None) _).
    apply Nat.ltb_lt. vm_compute. reflexivity.
  - destruct (proj2 (create_anima_request (R := test_runtime) fixtures.dump_python
      (fixtures.client fixtures.anima_created) fixtures.kanji_name None None))
      as [result [body [Hrun [Hname _]]]].
    + apply Nat.leb_le. vm_compute. reflexivity.
    + exists result, body. split; [ exact Hrun | exact Hname ].
Defined.

(** The three operations on a server that is down. *)
Lemma operations_share_the_error_mapping_witness :
  exists e,
    _handle_response (R := test_runtime) fixtures.unavailable = Raise (ApiError e)
    /\ fst (run (inject (R := test_runtime)
                   (fixtures.client (fixtures.mock_api fixtures.unavailable))
                   None None None))
       = Raise (ApiError e)
    /\ fst (run (extract (R := test_runtime)
                   (fixtures.client (fixtures.mock_api fixtures.unavailable))
                   (OfEnum MESSAGE_IN) "Hello!" None None None None None None None))
       = Raise (ApiError e)
    /\ fst (run (create_anima (R := test_runtime) fixtures.dump_python
                   (fixtures.client (fixtures.mock_api fixtures.unavailable))
                   "Test Anima" None None))
       = Raise (ApiError e).
Proof.
  destruct (operations_share_the_error_mapping (R := test_runtime)
    fixtures.dump_python
    (fixtures.client (fixtures.mock_api fixtures.unavailable))
    fixtures.unavailable (fun _ => eq_refl) eq_refl)
    as (e & He & Hinject & Hextract & Hcreate).
  exists e. split; [ exact He | ]. split; [ | split ].
  - apply Hinject. discriminate.
  - apply Hextract. discriminate.
  - apply Hcreate. discriminate.
Defined.

(** [test_create_anima_success], with another name in the request. *)
Lemma create_anima_decodes_the_body_witness :
  fst (run (create_anima (R := test_runtime) fixtures.dump_python
              (fixtures.client fixtures.anima_created) "Requested" None None))
  = Anima_new (R := test_runtime) fixtures.mock_anima.
Proof.
  exact (proj1 (create_anima_decodes_the_body (R := test_runtime)
    fixtures.dump_python (fixtures.client fixtures.anima_created)
    "Requested" None None
    (mkRequest POST "/animas" [] (Some (VDict [("name", VStr "Requested")])))
    (mkResponse 201 "" (Some (VDict fixtures.mock_anima)))
    (VDict fixtures.mock_anima)
    eq_refl eq_refl eq_refl eq_refl)
    fixtures.mock_anima eq_refl).
Defined.

(** A pack whose [knowledge] section is [null], and the same pack read
    for its long-term memories, of which it has no section. *)
Lemma list_accessors_need_a_list_witness :
  (exists msg,
      knowledge (fixtures.pack_with_content
                   [("context", VStr "x"); ("knowledge", VNone)])
      = Raise (TypeError msg))
  /\ long_term_memories (fixtures.pack_with_content
                           [("context", VStr "x"); ("knowledge", VNone)])
     = Return [].
Proof.
  pose proof (list_accessors_need_a_list (R := test_runtime)
    (fixtures.pack_with_content [("context", VStr "x"); ("knowledge", VNone)]))
    as H.
  destruct H as (_ & _ & _ & _ & Hnull & _ & _ & _ & Hmissing).
  split; [ exact (Hnull eq_refl) | exact (Hmissing eq_refl) ].
Defined.

(** A pack with the one knowledge item of [mock_memory_pack]. *)
Lemma knowledge_is_elementwise_witness :
  exists ks,
    knowledge (fixtures.pack_with_content
                 [("knowledge", VList [VDict fixtures.mock_knowledge])])
    = Return ks
    /\ List.length ks = 1%nat.
Proof.
  eexists. split; [ reflexivity | ].
  exact (proj1 (proj2 (knowledge_is_elementwise (R := test_runtime)
    (fixtures.pack_with_content
       [("knowledge", VList [VDict fixtures.mock_knowledge])])
    [VDict fixtures.mock_knowledge] eq_refl) _ eq_refl)).
Defined.

(** A pack whose [identity] section is an empty object. *)
Lemma optional_sections_are_none_iff_falsy_witness :
  identity (fixtures.pack_with_content
              [("context", VStr "x"); ("identity", VDict [])])
  = Return None.
Proof.
  exact (proj2 (proj1 (optional_sections_are_none_iff_falsy (R := test_runtime)
    (fixtures.pack_with_content
       [("context", VStr "x"); ("identity", VDict [])])))
    (or_intror eq_refl)).
Defined.

(** A pack decoded from its required fields alone. *)
Lemma pack_without_content_is_empty_witness :
  exists pack,
    MemoryPack_new (R := test_runtime) fixtures.minimal_memory_pack = Return pack
    /\ as_prompt pack = VStr ""
    /\ session_memories pack = Return [].
Proof.
  eexists. split; [ reflexivity | ].
  destruct (proj1 (pack_without_content_is_empty (R := test_runtime)
    fixtures.minimal_memory_pack _ eq_refl) (or_introl eq_refl))
    as (Hprompt & _ & _ & Hmemories & _).
  split; assumption.
Defined.

(** The event of [test_extract_with_all_params], echoed by the server. *)
Lemma dumped_event_validates_as_event_witness :
  Event_new (R := test_runtime)
    ((("id", VStr "00000000-0000-4000-8000-000000000001")
      :: EventCreate_model_dump fixtures.event_create)
     ++ [("created_at", VStr fixtures.now); ("updated_at", VStr fixtures.now)])%list
  = Return (mkEvent (R := test_runtime)
      "00000000-0000-4000-8000-000000000001" fixtures.anima_id "message.in"
      (Some "user") (Some "test-user") None "Hello!" None (Some "session-123")
      [("key", VStr "value")] None None (Some 0.8%float)
      fixtures.now fixtures.now).
Proof.
  refine (dumped_event_validates_as_event (R := test_runtime)
    fixtures.event_create "00000000-0000-4000-8000-000000000001"
    fixtures.now fixtures.now _ _).
  - intros u [-> | ->]; reflexivity.
  - intros t _. reflexivity.
Defined.

(** The first call in an environment that sets the key. *)
Lemma default_client_is_built_once_witness :
  functions._get_client fixtures.settings_from_env
    (fixtures.httpx_Client fixtures.created)
    (snd (functions._get_client fixtures.settings_from_env
            (fixtures.httpx_Client fixtures.created) None))
  = (Return (fixtures.client fixtures.created),
     Some (fixtures.client fixtures.created)).
Proof.
  destruct (proj1 (proj2 (default_client_is_built_once
    fixtures.settings_from_env (fixtures.httpx_Client fixtures.created) None))
    (fixtures.client fixtures.created) eq_refl) as (_ & H & _).
  exact H.
Defined.

(** [inject] in an environment that sets nothing. *)
Lemma functions_need_an_api_key_witness :
  functions.inject (R := test_runtime) fixtures.settings
    (fixtures.httpx_Client fixtures.created) None None None None
  = ((Raise (ValueError
       "API key required. Provide api_key parameter or set ELEPHANTASM_API_KEY."),
      []),
     None).
Proof.
  exact (proj1 (functions_need_an_api_key (R := test_runtime) fixtures.settings
    (fixtures.httpx_Client fixtures.created) fixtures.dump_python eq_refl)
    None None None).
Defined.

(** [inject] in an environment that sets the key and the anima id. *)
Lemma functions_use_the_settings_witness :
  functions.inject (R := test_runtime) fixtures.settings_from_env
    (fixtures.httpx_Client fixtures.no_packs) None None None None
  = (run (inject (R := test_runtime) (fixtures.client fixtures.no_packs)
            None None None),
     Some (fixtures.client fixtures.no_packs)).
Proof.
  destruct (functions_use_the_settings (R := test_runtime)
    fixtures.settings_from_env (fixtures.httpx_Client fixtures.no_packs)
    fixtures.dump_python (fixtures.client fixtures.no_packs) eq_refl)
    as (_ & H & _).
  exact (H None None None).
Defined.


(** [test_inject_returns_none_when_no_packs], at the level of the response. *)
Lemma handle_response_returns_iff_witness :
  _handle_response (R := test_runtime) (mkResponse 200 "null" (Some VNone))
  = Return VNone.
Proof.
  refine (proj2 (handle_response_returns_iff (R := test_runtime)
    (mkResponse 200 "null" (Some VNone)) VNone) _).
  cbn [status_code json]. split; [ lia | reflexivity ].
Defined.

(** The dump of the [EventCreate] of [test_extract_with_all_params]. *)
Lemma model_dump_excludes_none_only_witness :
  NoDup (keys (EventCreate_model_dump fixtures.event_create))
  /\ keys (EventCreate_model_dump fixtures.event_create)
     = ["anima_id"; "event_type"; "content"; "role"; "author"; "session_id";
        "meta"; "importance_score"]
  /\ get "debug" (EventCreate_model_dump fixtures.event_create) = None
  /\ get "summary" (EventCreate_model_dump fixtures.event_create) = None
  /\ get "importance_score" (EventCreate_model_dump fixtures.event_create)
     = Some (VFloat 0.8%float).
Proof.
  pose proof (model_dump_excludes_none_only (R := test_runtime)
    fixtures.event_create) as H.
  cbv zeta in H.
  destruct H as (Hnodup & Hkeys & Hother & _ & _ & _ & _ & _ & _ & Hsummary
                 & _ & _ & _ & _ & _ & Hscore).
  split; [ exact Hnodup | ]. split; [ exact Hkeys | ].
  split; [ apply Hother; unfold EventCreate_fields; cbn [In]; intuition discriminate | ].
  split; [ exact Hsummary | exact Hscore ].
Defined.

End on_more_fixtures.
